(** * Image content getters of the catalog service

    A shallow embedding of
    [anchore_engine/services/catalog/image_content/get_image_content.py]:
    the base retrieval flow [ImageContentGetter.get] and its three
    subclasses (manifest, dockerfile with migration on read, multiple
    content types), followed by the properties the design document states
    about them.

    Conventions.
    - Python values read from the archive are JSON trees ([json]); a Python
      dict is an association list in insertion order, which is the order
      [json.dumps] serialises and [dict.items] iterates.
    - A Python exception is a value of [exn]; a method of the getter is a
      computation in the monad [M], which threads the [world] (catalog
      database, object store, and the list of calls made to both) and keeps
      the world reached when an exception is raised.
    - Functions of other modules and of the Python library that the file
      only calls are fields of the class [Collaborators]. *)

From Stdlib Require Import String Ascii List ZArith Bool Lia DecimalString.
Import ListNotations.
Local Open Scope list_scope.
Local Open Scope string_scope.

(** ** Python values *)

#[warnings="-register-all"]
Inductive json : Type :=
| JNull
| JBool (b : bool)
| JNum (n : Z)
| JStr (s : string)
| JList (items : list json)
| JObj (members : list (string * json)).

(** A dict with string keys, in insertion order. *)
Definition dict : Type := list (string * json).

Fixpoint dict_get (k : string) (d : dict) : option json :=
  match d with
  | [] => None
  | (k', v) :: rest => if String.eqb k k' then Some v else dict_get k rest
  end.

(** [d[k] = v]: an existing key keeps its position, a new one goes last. *)
Fixpoint dict_set (k : string) (v : json) (d : dict) : dict :=
  match d with
  | [] => [(k, v)]
  | (k', v') :: rest =>
      if String.eqb k k' then (k, v) :: rest else (k', v') :: dict_set k v rest
  end.

Definition dict_keys (d : dict) : list string := map fst d.

Definition mem (s : string) (l : list string) : bool :=
  existsb (String.eqb s) l.

(** Truth value of a Python object, as [if x:] and [not x] test it. *)
Definition truthy (v : json) : bool :=
  match v with
  | JNull => false
  | JBool b => b
  | JNum n => negb (Z.eqb n 0)
  | JStr s => negb (String.eqb s "")
  | JList items => match items with [] => false | _ => true end
  | JObj members => match members with [] => false | _ => true end
  end.

Definition truthy_str (s : option string) : bool :=
  match s with
  | None => false
  | Some s => negb (String.eqb s "")
  end.

(** [str.lower], on the ASCII letters. *)
Definition lower_ascii (c : ascii) : ascii :=
  let n := nat_of_ascii c in
  if Nat.leb 65 n && Nat.leb n 90 then ascii_of_nat (n + 32) else c.

Fixpoint lower (s : string) : string :=
  match s with
  | EmptyString => EmptyString
  | String c rest => String (lower_ascii c) (lower rest)
  end.

Fixpoint is_substring (needle hay : string) : bool :=
  String.prefix needle hay
  || match hay with
     | EmptyString => false
     | String _ rest => is_substring needle rest
     end.

(** [str(x)] for a value that is a string or None. *)
Definition py_str (s : option string) : string :=
  match s with
  | None => "None"
  | Some s => s
  end.

(** The string of an entry read with [d.get(key, default)] when the
    default is the empty string. *)
Definition py_str_default (s : option string) : string :=
  match s with
  | None => ""
  | Some s => s
  end.

(** ** Exceptions *)

Record error_detail : Type := {
  detail_account_id : string;
  detail_content_type : option string;
  detail_image_digest : string
}.

Inductive exn : Type :=
| ResourceNotFound (message : string) (detail : error_detail)
| BadRequest (message : string) (detail : error_detail)
| AnchoreError (cause : exn) (message : string) (httpcode : Z)
| KeyError (key : option string)
| TypeError (text : string)
| AttributeError (name : string)
| ExternalError (origin : string) (text : string).

Definition result (A : Type) : Type := (exn + A)%type.

Definition result_bind {A B : Type} (r : result A) (f : A -> result B)
  : result B :=
  match r with
  | inl e => inl e
  | inr a => f a
  end.

(** ** Operations of Python objects on JSON trees *)

(** [key in container]. *)
Definition py_in (key : option string) (container : json) : result bool :=
  match container with
  | JObj members =>
      match key with
      | Some k => inr (mem k (dict_keys members))
      | None => inr false
      end
  | JList items =>
      inr (existsb
             (fun item =>
                match key, item with
                | Some k, JStr s => String.eqb k s
                | None, JNull => true
                | _, _ => false
                end) items)
  | JStr s =>
      match key with
      | Some k => inr (is_substring k s)
      | None => inl (TypeError "'in <string>' requires string as left operand")
      end
  | _ => inl (TypeError "argument is not iterable")
  end.

(** [container[key]]. *)
Definition py_getitem (container : json) (key : option string) : result json :=
  match container with
  | JObj members =>
      match key with
      | Some k =>
          match dict_get k members with
          | Some v => inr v
          | None => inl (KeyError key)
          end
      | None => inl (KeyError key)
      end
  | JList _ => inl (TypeError "list indices must be integers or slices")
  | JStr _ => inl (TypeError "string indices must be integers")
  | _ => inl (TypeError "object is not subscriptable")
  end.

(** [container.get(key, None)]. *)
Definition py_get (container : json) (key : string) : result json :=
  match container with
  | JObj members =>
      match dict_get key members with
      | Some v => inr v
      | None => inr JNull
      end
  | _ => inl (AttributeError "get")
  end.

(** [container[key] = value]; the result is the container after the
    assignment. *)
Definition py_setitem (container : json) (key : string) (value : json)
  : result json :=
  match container with
  | JObj members => inr (JObj (dict_set key value members))
  | JList _ => inl (TypeError "list indices must be integers or slices")
  | _ => inl (TypeError "object does not support item assignment")
  end.

(** [container.items()]. *)
Definition py_items (container : json) : result dict :=
  match container with
  | JObj members => inr members
  | _ => inl (AttributeError "items")
  end.

(** ** Records of the catalog database

    [db_catalog_image.get] returns the image record as a dict; the getters
    read four of its entries. [dockerfile_mode] and the [dockerfile] of an
    image detail are None when the entry is missing or null. *)

Record image_detail_entry : Type := {
  dockerfile : option string
}.

Record image_report : Type := {
  imageDigest : string;
  analysis_status : string;
  dockerfile_mode : option string;
  image_detail : list image_detail_entry
}.

(** ** The world outside the getters *)

Inductive call : Type :=
| DbCatalogImageGet (image_digest account_id : string)
| ObjGet (account_id bucket key : string)
| ObjPut (account_id bucket key data : string).

(** [db_images] answers [db_catalog_image.get]; [obj_data] is what
    [obj_mgr.get] returns or raises for each key; [obj_put_raises] tells
    which writes the object store refuses, and with which exception;
    [calls] lists the calls made so far, oldest first. *)
Record world : Type := {
  db_images : string -> string -> option image_report;
  obj_data : string -> string -> string -> result string;
  obj_put_raises : string -> string -> string -> string -> option exn;
  calls : list call
}.

Definition log (c : call) (w : world) : world :=
  {| db_images := db_images w;
     obj_data := obj_data w;
     obj_put_raises := obj_put_raises w;
     calls := (calls w ++ [c])%list |}.

Definition store (account_id bucket key data : string) (w : world) : world :=
  {| db_images := db_images w;
     obj_data := fun a b k =>
       if String.eqb a account_id && String.eqb b bucket && String.eqb k key
       then inr data
       else obj_data w a b k;
     obj_put_raises := obj_put_raises w;
     calls := calls w |}.

(** ** The monad of the getters' methods *)

Definition M (A : Type) : Type := world -> result A * world.

Definition ret {A : Type} (a : A) : M A := fun w => (inr a, w).

Definition raise {A : Type} (e : exn) : M A := fun w => (inl e, w).

Definition bind {A B : Type} (m : M A) (f : A -> M B) : M B :=
  fun w =>
    match m w with
    | (inl e, w') => (inl e, w')
    | (inr a, w') => f a w'
    end.

(** [try: m  except Exception as err: handler err]. *)
Definition try_except {A : Type} (m : M A) (handler : exn -> M A) : M A :=
  fun w =>
    match m w with
    | (inl e, w') => handler e w'
    | (inr a, w') => (inr a, w')
    end.

Definition lift {A : Type} (r : result A) : M A := fun w => (r, w).

Declare Scope getter_scope.
Delimit Scope getter_scope with getter.
Notation "x <- m ;; k" := (bind m (fun x => k))
  (at level 61, m at next level, right associativity) : getter_scope.
Notation "m ;; k" := (bind m (fun _ => k))
  (at level 61, right associativity) : getter_scope.
Local Open Scope getter_scope.

Definition db_catalog_image_get (image_digest account_id : string)
  : M (option image_report) :=
  fun w =>
    (inr (db_images w image_digest account_id),
     log (DbCatalogImageGet image_digest account_id) w).

Definition obj_mgr_get (account_id bucket key : string) : M string :=
  fun w => (obj_data w account_id bucket key, log (ObjGet account_id bucket key) w).

Definition obj_mgr_put (account_id bucket key data : string) : M unit :=
  fun w =>
    let w' := log (ObjPut account_id bucket key data) w in
    match obj_put_raises w account_id bucket key data with
    | Some err => (inl err, w')
    | None => (inr tt, store account_id bucket key data w')
    end.

(** ** Collaborators

    What the file imports and only calls: the task states of the analysis
    ([taskstate]), the supported content types ([image_content_types]),
    the response formatter ([helpers.make_image_content_response]), the
    exception wrapper ([make_anchore_exception], called with an exception,
    [input_message] and [input_httpcode]), and from the Python library the
    JSON codec and the base64 decoder. [json_loads b] stands for
    [json.loads(utils.ensure_str(b))], [json_dumps v] for
    [utils.ensure_bytes(json.dumps(v))] and [decodebytes s] for
    [utils.ensure_str(base64.decodebytes(utils.ensure_bytes(s)))]. *)
Class Collaborators : Type := {
  complete_state : string -> string;
  working_state : string -> string;
  image_content_types : list string;
  make_image_content_response : option string -> json -> result json;
  make_anchore_exception : exn -> string -> Z -> exn;
  json_loads : string -> result json;
  json_dumps : json -> string;
  decodebytes : string -> result string
}.

(** ** The getters *)

Inductive getter_class : Type :=
| ImageContentGetter
| ImageManifestContentGetter
| ImageDockerfileContentGetter
| MultipleContentTypesGetter.

(** Class attributes. *)
Definition __normalize_to_user_format_on_load__ (c : getter_class) : bool :=
  match c with
  | ImageContentGetter | ImageManifestContentGetter => true
  | ImageDockerfileContentGetter | MultipleContentTypesGetter => false
  end.

Definition __verify_content_type__ (c : getter_class) : bool :=
  match c with
  | MultipleContentTypesGetter => false
  | _ => true
  end.

(** Instance attributes; [content_types] is None while the attribute has
    not been assigned. *)
Record getter : Type := {
  class_of : getter_class;
  account_id : string;
  content_type : option string;
  image_digest : string;
  content_types : option (list string)
}.

(** [ImageContentGetter.__init__], inherited by the manifest and the
    dockerfile getters. *)
Definition init (c : getter_class) (account content : string) (digest : string)
  : getter :=
  {| class_of := c;
     account_id := account;
     content_type := Some content;
     image_digest := digest;
     content_types := None |}.

(** [MultipleContentTypesGetter.__init__]. *)
Definition init_multiple (account : string) (requested : list string)
  (digest : string) : getter :=
  {| class_of := MultipleContentTypesGetter;
     account_id := account;
     content_type := None;
     image_digest := digest;
     content_types :=
       match requested with
       | [] => None
       | _ => Some (map lower requested)
       end |}.

Definition get_error_detail (self : getter) : error_detail :=
  {| detail_account_id := account_id self;
     detail_content_type := content_type self;
     detail_image_digest := image_digest self |}.

Section Methods.

Context {collaborators : Collaborators}.

(** [ImageContentGetter.verify_analysis_status]. The report is a record
    with its fields, hence a true value in [if image_report and ...]. *)
Definition verify_analysis_status (self : getter) (image_report : image_report)
  (allow_analyzing_state : bool) : M unit :=
  let allowed_states :=
    ([complete_state "analyze"]
     ++ (if allow_analyzing_state then [working_state "analyze"] else []))%list
  in
  if negb (mem (analysis_status image_report) allowed_states)
  then raise (ResourceNotFound
                ("image is not analyzed - analysis_status: "
                 ++ analysis_status image_report)
                (get_error_detail self))
  else ret tt.

(** The body of the [try] in [get_image_content_data]: read the archive
    document of [bucket] and take its [document] entry. *)
Definition load_document (self : getter) (bucket image_digest : string)
  : M json :=
  data <- obj_mgr_get (account_id self) bucket image_digest ;;
  lift (result_bind (json_loads data)
          (fun envelope => py_getitem envelope (Some "document"))).

(** [get_image_content_data], with the override of the manifest getter. *)
Definition get_image_content_data (self : getter) (image_digest : string)
  : M json :=
  match class_of self with
  | ImageManifestContentGetter =>
      image_manifest_data <-
        try_except (load_document self "manifest_data" image_digest)
          (fun err =>
             raise (make_anchore_exception err
                      ("cannot fetch content data "
                       ++ py_str (content_type self) ++ " from archive")
                      500)) ;;
      ret (JObj [("manifest", image_manifest_data)])
  | _ =>
      try_except (load_document self "image_content_data" image_digest)
        (fun err =>
           raise (make_anchore_exception err
                    "cannot fetch content data from archive" 500))
  end.

(** [helpers.make_image_content_response(self.content_type,
    image_content_data[self.content_type])]. *)
Definition content_response (self : getter) (image_content_data : json)
  : result json :=
  result_bind (py_getitem image_content_data (content_type self))
    (make_image_content_response (content_type self)).

(** The [for] loop of the dockerfile getter, inside its [try]. The handler
    of that [try] only logs, so every exception raised here ends the loop;
    the value returned is the in-memory document as the loop leaves it,
    which the statement after the [try] reads. Only the first image detail
    with a true [dockerfile] is processed: it ends in [break] or in an
    exception. *)
Fixpoint migrate_dockerfile (self : getter) (image_report : image_report)
  (details : list image_detail_entry) (image_content_data : json) : M json :=
  match details with
  | [] => ret image_content_data
  | image_detail :: rest =>
      if negb (truthy_str (dockerfile image_detail))
      then migrate_dockerfile self image_report rest image_content_data
      else
        match decodebytes (py_str_default (dockerfile image_detail)) with
        | inl err => ret image_content_data
        | inr text =>
            match py_setitem image_content_data "dockerfile" (JStr text) with
            | inl err => ret image_content_data
            | inr migrated =>
                let jsonbytes := json_dumps (JObj [("document", migrated)]) in
                try_except
                  (obj_mgr_put (account_id self) "image_content_data"
                     (imageDigest image_report) jsonbytes ;;
                   ret migrated)
                  (fun err => ret migrated)
            end
        end
  end.

(** [ImageDockerfileContentGetter.hydrate_additional_data]. *)
Definition hydrate_dockerfile (self : getter) (image_content_data : json)
  (image_report : image_report) : M json :=
  present <- lift (py_get image_content_data "dockerfile") ;;
  if truthy present
  then lift (content_response self image_content_data)
  else
    if negb (match dockerfile_mode image_report with
             | Some mode => String.eqb mode "Actual"
             | None => false
             end)
    then
      (* return inside the try: an exception of the formatter is caught and
         logged, and the statement after the try runs *)
      try_except (lift (content_response self image_content_data))
        (fun err => lift (content_response self image_content_data))
    else
      image_content_data <-
        migrate_dockerfile self image_report (image_detail image_report)
          image_content_data ;;
      lift (content_response self image_content_data).

(** [MultipleContentTypesGetter._is_content_type_match]. *)
Definition _is_content_type_match (self : getter) (content_type : string)
  : result bool :=
  if String.eqb content_type "" || negb (mem content_type image_content_types)
  then inr false
  else
    match content_types self with
    | None => inl (AttributeError "content_types")
    | Some requested =>
        if mem "all" requested then inr true
        else inr (mem (lower content_type) requested)
    end.

(** The dict comprehension of the multiple getter: [results] is the dict
    built so far. *)
Fixpoint gather (self : getter) (items : dict) (results : dict) : result dict :=
  match items with
  | [] => inr results
  | (c_type, packages) :: rest =>
      result_bind (_is_content_type_match self c_type)
        (fun matched =>
           if matched
           then result_bind (make_image_content_response (Some c_type) packages)
                  (fun response =>
                     gather self rest (dict_set c_type response results))
           else gather self rest results)
  end.

(** [MultipleContentTypesGetter.hydrate_additional_data]. *)
Definition hydrate_multiple (self : getter) (image_content_data : json)
  (image_report : image_report) : M json :=
  if negb (truthy image_content_data)
  then ret (JObj [])
  else
    match content_types self with
    | None => raise (AttributeError "content_types")
    | Some requested =>
        match requested with
        | [] => ret (JObj [])
        | _ =>
            items <- lift (py_items image_content_data) ;;
            results <- lift (gather self items []) ;;
            ret (JObj results)
        end
    end.

(** [hydrate_additional_data], dispatched on the class of the getter. *)
Definition hydrate_additional_data (self : getter) (image_content_data : json)
  (image_report : image_report) : M json :=
  match class_of self with
  | ImageDockerfileContentGetter =>
      hydrate_dockerfile self image_content_data image_report
  | MultipleContentTypesGetter =>
      hydrate_multiple self image_content_data image_report
  | _ => ret image_content_data
  end.

(** [ImageContentGetter.get]. *)
Definition get (self : getter) (allow_analyzing_state : bool) : M json :=
  image_report <- db_catalog_image_get (image_digest self) (account_id self) ;;
  match image_report with
  | None => raise (ResourceNotFound "Image not found" (get_error_detail self))
  | Some image_report =>
      verify_analysis_status self image_report allow_analyzing_state ;;
      image_content_data <- get_image_content_data self (image_digest self) ;;
      missing <-
        (if __verify_content_type__ (class_of self)
         then found <- lift (py_in (content_type self) image_content_data) ;;
              ret (negb found)
         else ret false) ;;
      if (missing : bool)
      then raise (BadRequest
                    ("image content of type (" ++ py_str (content_type self)
                     ++ ") was not an available type at analysis time for this image")
                    (get_error_detail self))
      else
        image_content_data <-
          (if __normalize_to_user_format_on_load__ (class_of self)
           then lift (content_response self image_content_data)
           else ret image_content_data) ;;
        hydrate_additional_data self image_content_data image_report
  end.

End Methods.

(** ** Vocabulary of the properties *)

Section Vocabulary.

Context {collaborators : Collaborators}.

(** The statuses [get] accepts. *)
Definition allowed_status (allow_analyzing_state : bool) (status : string)
  : Prop :=
  status = complete_state "analyze"
  \/ (allow_analyzing_state = true /\ status = working_state "analyze").

(** The storage category a getter reads its content document from. *)
Definition content_bucket (c : getter_class) : string :=
  match c with
  | ImageManifestContentGetter => "manifest_data"
  | _ => "image_content_data"
  end.

(** The document held by the archive for an image: what reading the entry,
    parsing it and taking [document] gives, or the exception of the first
    of these steps that fails. *)
Definition archive_document (w : world) (account bucket digest : string)
  : result json :=
  result_bind (obj_data w account bucket digest)
    (fun data =>
       result_bind (json_loads data)
         (fun envelope => py_getitem envelope (Some "document"))).

(** The legacy dockerfile body the migration takes: that of the first
    image detail whose [dockerfile] is a true value. *)
Definition first_legacy_body (details : list image_detail_entry)
  : option string :=
  match find (fun d => truthy_str (dockerfile d)) details with
  | Some d => dockerfile d
  | None => None
  end.

(** What [image_content_data.get] returns for the key [dockerfile] of a
    document with the given members. *)
Definition dockerfile_entry (members : dict) : json :=
  match dict_get "dockerfile" members with
  | Some v => v
  | None => JNull
  end.

(** The one case in which the hook of the dockerfile getter replaces the
    payload of the requested type: the type is [dockerfile], the image is
    in mode Actual, and a legacy body is found and decoded. *)
Definition migration_applies (self : getter) (r : image_report) : Prop :=
  class_of self = ImageDockerfileContentGetter
  /\ content_type self = Some "dockerfile"
  /\ dockerfile_mode r = Some "Actual"
  /\ exists body text,
       first_legacy_body (image_detail r) = Some body
       /\ decodebytes body = inr text.

(** The inclusion rule of the multiple getter for a key of the document,
    the requested types taken in lower case. *)
Definition requested_match (requested : list string) (key : string) : Prop :=
  In key image_content_types
  /\ (In "all" (map lower requested) \/ In (lower key) (map lower requested)).

(** The world in which [get] fetches the content document: the one it
    was called in, with the lookup of the image record made. *)
Definition looked_up (self : getter) (w : world) : world :=
  log (DbCatalogImageGet (image_digest self) (account_id self)) w.

(** The world in which [get] goes on after the fetch. *)
Definition fetched_in (self : getter) (w : world) : world :=
  log (ObjGet (account_id self) (content_bucket (class_of self))
         (image_digest self))
    (looked_up self w).

(** A computation that leaves the calls already made in place. *)
Definition appends {A : Type} (m : M A) : Prop :=
  forall w, exists made, calls (snd (m w)) = (calls w ++ made)%list.

Definition is_put (c : call) : bool :=
  match c with
  | ObjPut _ _ _ _ => true
  | _ => false
  end.

End Vocabulary.

(** ** A reference instance of the collaborators

    Executable stand-ins on which the getters can be run: a JSON printer
    and parser for the trees of [json], a base64 decoder for the standard
    alphabet, and the parts of the repository that the getters call. *)
Module Reference.

Definition dquote : ascii := Eval cbv in ascii_of_nat 34.
Definition backslash : ascii := Eval cbv in ascii_of_nat 92.
Definition newline : ascii := Eval cbv in ascii_of_nat 10.

Definition print_Z (n : Z) : string :=
  match n with
  | Z0 => "0"
  | Zpos p => NilZero.string_of_uint (Pos.to_uint p)
  | Zneg p => String "-" (NilZero.string_of_uint (Pos.to_uint p))
  end.

Fixpoint escape (s : string) : string :=
  match s with
  | EmptyString => EmptyString
  | String c rest =>
      if Ascii.eqb c dquote then String backslash (String dquote (escape rest))
      else if Ascii.eqb c backslash
           then String backslash (String backslash (escape rest))
      else if Ascii.eqb c newline then String backslash (String "n" (escape rest))
      else String c (escape rest)
  end.

Definition quote (s : string) : string :=
  String dquote (escape s ++ String dquote EmptyString).

(** [json.dumps] with its default separators. *)
Fixpoint print_json (v : json) : string :=
  match v with
  | JNull => "null"
  | JBool true => "true"
  | JBool false => "false"
  | JNum n => print_Z n
  | JStr s => quote s
  | JList items =>
      "["
      ++ (fix print_items (l : list json) : string :=
            match l with
            | [] => ""
            | [item] => print_json item
            | item :: rest => print_json item ++ ", " ++ print_items rest
            end) items
      ++ "]"
  | JObj members =>
      "{"
      ++ (fix print_members (l : list (string * json)) : string :=
            match l with
            | [] => ""
            | [(k, item)] => quote k ++ ": " ++ print_json item
            | (k, item) :: rest =>
                quote k ++ ": " ++ print_json item ++ ", " ++ print_members rest
            end) members
      ++ "}"
  end.

Definition is_space (c : ascii) : bool :=
  Ascii.eqb c " " || Ascii.eqb c newline
  || Ascii.eqb c (ascii_of_nat 9) || Ascii.eqb c (ascii_of_nat 13).

Fixpoint skip_spaces (s : string) : string :=
  match s with
  | String c rest => if is_space c then skip_spaces rest else s
  | EmptyString => s
  end.

(** The characters of a string literal after its opening quote, and what
    follows the closing quote. *)
Fixpoint parse_chars (s : string) : option (string * string) :=
  match s with
  | EmptyString => None
  | String c rest =>
      if Ascii.eqb c dquote then Some (EmptyString, rest)
      else if Ascii.eqb c backslash
      then match rest with
           | String e rest' =>
               let literal :=
                 if Ascii.eqb e "n" then Some newline
                 else if Ascii.eqb e dquote || Ascii.eqb e backslash
                         || Ascii.eqb e "/"
                      then Some e
                      else None in
               match literal, parse_chars rest' with
               | Some ch, Some (body, after) => Some (String ch body, after)
               | _, _ => None
               end
           | EmptyString => None
           end
      else match parse_chars rest with
           | Some (body, after) => Some (String c body, after)
           | None => None
           end
  end.

Definition is_digit (c : ascii) : bool :=
  let n := nat_of_ascii c in Nat.leb 48 n && Nat.leb n 57.

Fixpoint span_digits (s : string) : string * string :=
  match s with
  | String c rest =>
      if is_digit c
      then let (digits, after) := span_digits rest in (String c digits, after)
      else (EmptyString, s)
  | EmptyString => (EmptyString, EmptyString)
  end.

Definition parse_number (s : string) : option (json * string) :=
  let (negative, body) :=
    match s with
    | String "-" rest => (true, rest)
    | _ => (false, s)
    end in
  let (digits, after) := span_digits body in
  match NilZero.uint_of_string digits with
  | Some u =>
      let n := Z.of_N (N.of_uint u) in
      Some (JNum (if negative then Z.opp n else n), after)
  | None => None
  end.

Definition expect (word : string) (v : json) (s : string)
  : option (json * string) :=
  if String.prefix word s
  then Some (v, String.substring (String.length word)
                  (String.length s - String.length word) s)
  else None.

Fixpoint parse_value (fuel : nat) (s : string) {struct fuel}
  : option (json * string) :=
  match fuel with
  | O => None
  | S fuel =>
      match skip_spaces s with
      | EmptyString => None
      | String c rest =>
          if Ascii.eqb c dquote
          then match parse_chars rest with
               | Some (body, after) => Some (JStr body, after)
               | None => None
               end
          else if Ascii.eqb c "["
          then match skip_spaces rest with
               | String "]" after => Some (JList [], after)
               | _ => parse_items fuel rest []
               end
          else if Ascii.eqb c "{"
          then match skip_spaces rest with
               | String "}" after => Some (JObj [], after)
               | _ => parse_members fuel rest []
               end
          else if Ascii.eqb c "n" then expect "null" JNull (String c rest)
          else if Ascii.eqb c "t" then expect "true" (JBool true) (String c rest)
          else if Ascii.eqb c "f"
          then expect "false" (JBool false) (String c rest)
          else parse_number (String c rest)
      end
  end
with parse_items (fuel : nat) (s : string) (seen : list json) {struct fuel}
  : option (json * string) :=
  match fuel with
  | O => None
  | S fuel =>
      match parse_value fuel s with
      | Some (item, after) =>
          match skip_spaces after with
          | String "," more => parse_items fuel more (seen ++ [item])%list
          | String "]" more => Some (JList (seen ++ [item])%list, more)
          | _ => None
          end
      | None => None
      end
  end
with parse_members (fuel : nat) (s : string) (seen : dict) {struct fuel}
  : option (json * string) :=
  match fuel with
  | O => None
  | S fuel =>
      match skip_spaces s with
      | String c rest =>
          if Ascii.eqb c dquote
          then match parse_chars rest with
               | Some (k, after) =>
                   match skip_spaces after with
                   | String ":" more =>
                       match parse_value fuel more with
                       | Some (item, after') =>
                           match skip_spaces after' with
                           | String "," more' =>
                               parse_members fuel more' (dict_set k item seen)
                           | String "}" more' =>
                               Some (JObj (dict_set k item seen), more')
                           | _ => None
                           end
                       | None => None
                       end
                   | _ => None
                   end
               | None => None
               end
          else None
      | EmptyString => None
      end
  end.

(** [json.loads]: one value, then nothing but spaces. *)
Definition parse_json (s : string) : result json :=
  match parse_value (2 * String.length s + 2) s with
  | Some (v, after) =>
      match skip_spaces after with
      | EmptyString => inr v
      | _ => inl (ExternalError "json" "Extra data")
      end
  | None => inl (ExternalError "json" "Expecting value")
  end.

(** The six bits a character of the base64 alphabet stands for. *)
Definition sextet (c : ascii) : option nat :=
  let n := nat_of_ascii c in
  if Nat.leb 65 n && Nat.leb n 90 then Some (n - 65)
  else if Nat.leb 97 n && Nat.leb n 122 then Some (n - 71)
  else if Nat.leb 48 n && Nat.leb n 57 then Some (n + 4)
  else if Nat.eqb n 43 then Some 62
  else if Nat.eqb n 47 then Some 63
  else None.

(** The sextets before the first padding character, characters outside
    the alphabet dropped, and the number of padding characters. *)
Fixpoint sextets (s : string) : list nat * nat :=
  match s with
  | EmptyString => ([], 0)
  | String c rest =>
      if Ascii.eqb c "="
      then ([], S (snd (sextets rest)))
      else let (data, pads) := sextets rest in
           match sextet c with
           | Some n => (n :: data, pads)
           | None => (data, pads)
           end
  end.

Fixpoint octets (data : list nat) (pads : nat) : option string :=
  match data with
  | [] => Some EmptyString
  | [_] => None
  | [a; b] =>
      if Nat.leb 2 pads
      then Some (String (ascii_of_nat (a * 4 + b / 16)) EmptyString)
      else None
  | [a; b; c] =>
      if Nat.leb 1 pads
      then Some (String (ascii_of_nat (a * 4 + b / 16))
                   (String (ascii_of_nat ((b mod 16) * 16 + c / 4)) EmptyString))
      else None
  | a :: b :: c :: d :: rest =>
      match octets rest pads with
      | Some tail =>
          Some (String (ascii_of_nat (a * 4 + b / 16))
                  (String (ascii_of_nat ((b mod 16) * 16 + c / 4))
                     (String (ascii_of_nat ((c mod 4) * 64 + d)) tail)))
      | None => None
      end
  end.

(** [base64.decodebytes]. *)
Definition b64decode (s : string) : result string :=
  let (data, pads) := sextets s in
  match octets data pads with
  | Some text => inr text
  | None => inl (ExternalError "binascii" "Incorrect padding")
  end.

(** Modelled from the spec: the Response Formatter
    [helpers.make_image_content_response], which is not part of this file.
    It turns the stored payload of a content type into the external shape,
    gives the empty result for an empty payload, and may fail on a payload
    whose shape it does not recognise. Here a mapping from package
    identifier to package record becomes the list of its records, a list
    and a text are returned as they are, and any other payload is
    refused. *)
Definition format_response (content_type : option string) (payload : json)
  : result json :=
  if negb (truthy payload) then inr (JList [])
  else
    match payload with
    | JObj members => inr (JList (map snd members))
    | JList items => inr (JList items)
    | JStr text => inr (JStr text)
    | _ => inl (ExternalError "make_image_content_response"
                  "unrecognised payload")
    end.

(** Modelled from the spec: the Supported-Type Registry
    [image_content_types], with the content types the design document
    names. *)
Definition supported_types : list string :=
  ["os"; "java"; "manifest"; "dockerfile"].

(** Modelled from the spec: the analysis states of [taskstate], whose
    terminal success state is [analyzed-complete] and whose working state
    is [analyzing]. *)
Definition analyze_complete_state (state_type : string) : string :=
  "analyzed-complete".

Definition analyze_working_state (state_type : string) : string :=
  "analyzing".

(** Modelled from the spec: the wrapper [make_anchore_exception] keeps the
    underlying exception as the cause and exposes the message and the code
    it is given. *)
Definition wrap_exception (err : exn) (input_message : string)
  (input_httpcode : Z) : exn :=
  AnchoreError err input_message input_httpcode.

Definition collaborators : Collaborators := {|
  complete_state := analyze_complete_state;
  working_state := analyze_working_state;
  image_content_types := supported_types;
  make_image_content_response := format_response;
  make_anchore_exception := wrap_exception;
  json_loads := parse_json;
  json_dumps := print_json;
  decodebytes := b64decode
|}.

End Reference.

(** ** Sample images and archives *)
Module Samples.

Definition account : string := "admin".
Definition digest : string := "sha256:0a1b2c".

Definition report (status : string) (mode : option string)
  (bodies : list (option string)) : image_report :=
  {| imageDigest := digest;
     analysis_status := status;
     dockerfile_mode := mode;
     image_detail := map (fun body => {| dockerfile := body |}) bodies |}.

Definition unavailable : exn := ExternalError "object_store" "unavailable".

(** The archive entry holding a document. *)
Definition entry (document : json) : result string :=
  inr (Reference.print_json (JObj [("document", document)])).

(** A world with one image record, its two archive entries, an object
    store that accepts or refuses every write, and no call made yet. *)
Definition world_of (r : image_report) (content manifest : result string)
  (read_only : bool) : world :=
  {| db_images := fun d a =>
       if String.eqb d digest && String.eqb a account then Some r else None;
     obj_data := fun a b k =>
       if String.eqb a account && String.eqb k digest
       then if String.eqb b "image_content_data" then content
            else if String.eqb b "manifest_data" then manifest
            else inl unavailable
       else inl unavailable;
     obj_put_raises := fun _ _ _ _ =>
       if read_only then Some unavailable else None;
     calls := [] |}.

(** Running [get] with the reference collaborators. *)
Definition run (self : getter) (w : world) : result json * world :=
  get (collaborators := Reference.collaborators) self false w.

Definition analyzed : image_report := report "analyzed-complete" None [].
Definition analyzing : image_report := report "analyzing" None [].

Definition packages : json :=
  JObj [("os", JObj [("musl", JObj [("version", JStr "1.2.4")])]);
        ("java", JObj []);
        ("unsupported", JObj [("x", JNum 1)])].

Definition manifest : json := JObj [("schemaVersion", JNum 2)].

(** An image analyzed in mode Actual whose second image detail holds the
    base64 form of the text [FROM alpine]. *)
Definition legacy_body : string := "RlJPTSBhbHBpbmU=".
Definition legacy : image_report :=
  report "analyzed-complete" (Some "Actual") [None; Some legacy_body].
Definition broken_legacy : image_report :=
  report "analyzed-complete" (Some "Actual") [Some "R"].

Definition unmigrated : json :=
  JObj [("os", JObj []); ("dockerfile", JStr "")].
Definition migrated : json :=
  JObj [("os", JObj []); ("dockerfile", JStr "FROM alpine")].
Definition without_dockerfile : json := JObj [("os", JObj [])].

Definition os_getter : getter := init ImageContentGetter account "os" digest.
Definition stranger : getter :=
  init ImageContentGetter account "os" "sha256:ffffff".
Definition java_getter : getter :=
  init ImageContentGetter account "java" digest.
Definition python_getter : getter :=
  init ImageContentGetter account "python" digest.
Definition manifest_getter : getter :=
  init ImageManifestContentGetter account "manifest" digest.
Definition dockerfile_getter : getter :=
  init ImageDockerfileContentGetter account "dockerfile" digest.

Definition packages_world : world :=
  world_of analyzed (entry packages) (entry manifest) false.
Definition analyzing_world : world :=
  world_of analyzing (entry packages) (entry manifest) false.
Definition failing_world : world :=
  world_of analyzed (inl unavailable) (inl unavailable) false.
Definition legacy_world : world :=
  world_of legacy (entry unmigrated) (entry manifest) false.
Definition read_only_legacy_world : world :=
  world_of legacy (entry unmigrated) (entry manifest) true.
Definition broken_legacy_world : world :=
  world_of broken_legacy (entry unmigrated) (entry manifest) false.
Definition keyless_world : world :=
  world_of legacy (entry without_dockerfile) (entry manifest) false.

(** A second tenant, whose archive fails in the same way. *)
Definition other_getter : getter :=
  init ImageContentGetter "tenant-b" "os" "sha256:9f8e7d".
Definition other_world : world :=
  {| db_images := fun _ _ => Some analyzed;
     obj_data := fun _ _ _ => inl unavailable;
     obj_put_raises := fun _ _ _ _ => None;
     calls := [] |}.

End Samples.

(** ** Vocabulary of the further properties *)

Section FurtherVocabulary.

Context {collaborators : Collaborators}.

(** What [_is_content_type_match] answers for a key of the document when
    the requested types are [requested]: the key is not empty, it is a
    supported content type, and the lower-cased request holds [all] or the
    key in lower case. *)
Definition selected (requested : list string) (key : string) : bool :=
  negb (String.eqb key "")
  && mem key image_content_types
  && (mem "all" (map lower requested)
      || mem (lower key) (map lower requested)).

(** An entry of the result of the multiple getter and the entry of the
    document it comes from: the same key, and the formatted payload. *)
Definition formatted_from (entry source : string * json) : Prop :=
  fst entry = fst source
  /\ make_image_content_response (Some (fst source)) (snd source)
     = inr (snd entry).

(** The document the migration leaves in memory, and the bytes it writes
    to the archive. *)
Definition migrated_document (text : string) (members : dict) : dict :=
  dict_set "dockerfile" (JStr text) members.

Definition migrated_bytes (text : string) (members : dict) : string :=
  json_dumps (JObj [("document", JObj (migrated_document text members))]).

(** The calls [get] makes on a getter: the lookup of the image record,
    the read of the content document, and the write of the migration. *)
Definition lookup_call (self : getter) : call :=
  DbCatalogImageGet (image_digest self) (account_id self).

Definition read_call (self : getter) : call :=
  ObjGet (account_id self) (content_bucket (class_of self)) (image_digest self).

Definition write_call (self : getter) (r : image_report) (data : string)
  : call :=
  ObjPut (account_id self) "image_content_data" (imageDigest r) data.

End FurtherVocabulary.

(** ** Further sample archives *)
Module Cases.

(** A document whose [os] payload the reference formatter refuses. *)
Definition odd_packages : json :=
  JObj [("java", JObj [("guava", JObj [("version", JStr "33.0")])]);
        ("os", JNum 7)].

Definition odd_world : world :=
  Samples.world_of Samples.analyzed (Samples.entry odd_packages)
    (Samples.entry Samples.manifest) false.

Definition migrated_world : world :=
  Samples.world_of Samples.legacy (Samples.entry Samples.migrated)
    (Samples.entry Samples.manifest) false.

(** A dockerfile getter asked for the packages of the operating system. *)
Definition dockerfile_getter_for_os : getter :=
  init ImageDockerfileContentGetter Samples.account "os" Samples.digest.

Definition all_getter : getter :=
  init_multiple Samples.account ["all"] Samples.digest.

Definition os_selection : getter :=
  init_multiple Samples.account ["OS"] Samples.digest.

(** An image whose legacy body is not empty and decodes to the empty
    text. *)
Definition blank_legacy : image_report :=
  Samples.report "analyzed-complete" (Some "Actual") [Some " "].

Definition blank_legacy_world : world :=
  Samples.world_of blank_legacy (Samples.entry Samples.unmigrated)
    (Samples.entry Samples.manifest) false.

End Cases.

(** * Properties *)

Section Properties.

Context {collaborators : Collaborators}.

(** ** Lists and dicts *)

Lemma mem_In (s : string) (l : list string) : mem s l = true <-> In s l.
Proof.
  unfold mem. rewrite existsb_exists. split.
  - intros [x [Hx Heq]]. apply String.eqb_eq in Heq. subst. exact Hx.
  - intros H. exists s. split; [exact H | apply String.eqb_refl].
Qed.

Lemma mem_false (s : string) (l : list string) : mem s l = false <-> ~ In s l.
Proof.
  rewrite <- mem_In. destruct (mem s l); split; intros; congruence.
Qed.

Lemma dict_get_keys (k : string) (d : dict) :
  In k (dict_keys d) <-> exists v, dict_get k d = Some v.
Proof.
  induction d as [|[k' v'] rest IH]; simpl.
  - split; [tauto | intros [v H]; discriminate].
  - destruct (String.eqb_spec k k') as [->|Hne].
    + split; [intros _; now exists v' | now left].
    + rewrite <- IH. split; [intros [H|H]; [congruence | exact H] | now right].
Qed.

Lemma dict_get_set_same (k : string) (v : json) (d : dict) :
  dict_get k (dict_set k v d) = Some v.
Proof.
  induction d as [|[k' v'] rest IH]; simpl.
  - now rewrite String.eqb_refl.
  - destruct (String.eqb_spec k k') as [->|Hne]; simpl.
    + now rewrite String.eqb_refl.
    + destruct (String.eqb_spec k k'); [congruence | exact IH].
Qed.

Lemma dict_get_set_other (k k' : string) (v : json) (d : dict) :
  k' <> k -> dict_get k' (dict_set k v d) = dict_get k' d.
Proof.
  intros Hne. induction d as [|[k0 v0] rest IH]; simpl.
  - destruct (String.eqb_spec k' k); [congruence | reflexivity].
  - destruct (String.eqb_spec k k0) as [->|Hk]; simpl.
    + destruct (String.eqb_spec k' k0); [congruence | reflexivity].
    + destruct (String.eqb_spec k' k0); [reflexivity | exact IH].
Qed.

Lemma dict_set_idempotent (k : string) (v : json) (d : dict) :
  dict_set k v (dict_set k v d) = dict_set k v d.
Proof.
  induction d as [|[k' v'] rest IH]; simpl.
  - now rewrite String.eqb_refl.
  - destruct (String.eqb_spec k k') as [->|Hne]; simpl.
    + now rewrite String.eqb_refl.
    + destruct (String.eqb_spec k k'); [congruence | now rewrite IH].
Qed.

Lemma dict_keys_set (k k' : string) (v : json) (d : dict) :
  In k' (dict_keys (dict_set k v d)) <-> k' = k \/ In k' (dict_keys d).
Proof.
  induction d as [|[k0 v0] rest IH]; simpl.
  - intuition congruence.
  - destruct (String.eqb_spec k k0) as [->|Hne]; simpl.
    + intuition congruence.
    + rewrite IH. intuition congruence.
Qed.

(** ** The steps of [get] *)

Lemma allowed_status_mem (allow : bool) (status : string) :
  mem status
    ([complete_state "analyze"]
     ++ (if allow then [working_state "analyze"] else []))%list = true
  <-> allowed_status allow status.
Proof.
  unfold allowed_status. rewrite mem_In. destruct allow; simpl.
  - intuition congruence.
  - intuition congruence.
Qed.

Lemma verify_analysis_status_allowed (self : getter) (r : image_report)
  (allow : bool) (w : world) :
  allowed_status allow (analysis_status r) ->
  verify_analysis_status self r allow w = (inr tt, w).
Proof.
  intros H. apply allowed_status_mem in H.
  unfold verify_analysis_status. now rewrite H.
Qed.

Lemma verify_analysis_status_refused (self : getter) (r : image_report)
  (allow : bool) (w : world) :
  ~ allowed_status allow (analysis_status r) ->
  verify_analysis_status self r allow w
  = (inl (ResourceNotFound
            ("image is not analyzed - analysis_status: " ++ analysis_status r)
            (get_error_detail self)), w).
Proof.
  intros H. rewrite <- allowed_status_mem in H.
  unfold verify_analysis_status.
  destruct (mem _ _); [congruence | reflexivity].
Qed.

Lemma load_document_run (self : getter) (bucket digest : string) (w : world) :
  load_document self bucket digest w
  = (archive_document w (account_id self) bucket digest,
     log (ObjGet (account_id self) bucket digest) w).
Proof.
  unfold load_document, archive_document, bind, obj_mgr_get, lift.
  destruct (obj_data w (account_id self) bucket digest); reflexivity.
Qed.

Lemma get_image_content_data_world (self : getter) (digest : string) (w : world) :
  snd (get_image_content_data self digest w)
  = log (ObjGet (account_id self) (content_bucket (class_of self)) digest) w.
Proof.
  unfold get_image_content_data, try_except, bind.
  destruct (class_of self); rewrite load_document_run; simpl;
    destruct (archive_document _ _ _ _); reflexivity.
Qed.

Lemma get_image_content_data_primary (self : getter) (digest : string)
  (w : world) :
  class_of self <> ImageManifestContentGetter ->
  get_image_content_data self digest w
  = (match archive_document w (account_id self) "image_content_data" digest with
     | inl err =>
         inl (make_anchore_exception err
                "cannot fetch content data from archive" 500)
     | inr document => inr document
     end,
     log (ObjGet (account_id self) "image_content_data" digest) w).
Proof.
  intros Hclass. unfold get_image_content_data, try_except.
  destruct (class_of self); try congruence; rewrite load_document_run;
    destruct (archive_document _ _ _ _); reflexivity.
Qed.

Lemma get_image_content_data_manifest (self : getter) (digest : string)
  (w : world) :
  class_of self = ImageManifestContentGetter ->
  get_image_content_data self digest w
  = (match archive_document w (account_id self) "manifest_data" digest with
     | inl err =>
         inl (make_anchore_exception err
                ("cannot fetch content data " ++ py_str (content_type self)
                 ++ " from archive") 500)
     | inr document => inr (JObj [("manifest", document)])
     end,
     log (ObjGet (account_id self) "manifest_data" digest) w).
Proof.
  intros Hclass. unfold get_image_content_data, try_except, bind.
  rewrite Hclass, load_document_run.
  destruct (archive_document _ _ _ _); reflexivity.
Qed.

Lemma get_not_found (self : getter) (allow : bool) (w : world) :
  db_images w (image_digest self) (account_id self) = None ->
  get self allow w
  = (inl (ResourceNotFound "Image not found" (get_error_detail self)),
     looked_up self w).
Proof.
  intros H. unfold get, bind, db_catalog_image_get. now rewrite H.
Qed.

Lemma get_refused (self : getter) (allow : bool) (w : world) (r : image_report) :
  db_images w (image_digest self) (account_id self) = Some r ->
  ~ allowed_status allow (analysis_status r) ->
  get self allow w
  = (inl (ResourceNotFound
            ("image is not analyzed - analysis_status: " ++ analysis_status r)
            (get_error_detail self)),
     looked_up self w).
Proof.
  intros Hr Hs. unfold get, bind, db_catalog_image_get. rewrite Hr.
  now rewrite verify_analysis_status_refused.
Qed.

Section Fetched.

Variables (self : getter) (allow : bool) (w w' : world) (r : image_report).
Hypothesis found : db_images w (image_digest self) (account_id self) = Some r.
Hypothesis allowed : allowed_status allow (analysis_status r).

Lemma get_fetch_failed (err : exn) :
  get_image_content_data self (image_digest self) (looked_up self w)
  = (inl err, w') ->
  get self allow w = (inl err, w').
Proof.
  intros Hfetch. unfold looked_up in *.
  unfold get, bind at 1 2 3, db_catalog_image_get.
  rewrite found, verify_analysis_status_allowed by exact allowed.
  now rewrite Hfetch.
Qed.

Variable document : json.
Hypothesis fetched :
  get_image_content_data self (image_digest self) (looked_up self w)
  = (inr document, w').

Lemma get_in_failed (err : exn) :
  __verify_content_type__ (class_of self) = true ->
  py_in (content_type self) document = inl err ->
  get self allow w = (inl err, w').
Proof.
  intros Hv Hin. unfold looked_up in *.
  unfold get, bind, db_catalog_image_get, lift.
  rewrite found, verify_analysis_status_allowed by exact allowed.
  now rewrite fetched, Hv, Hin.
Qed.

Lemma get_missing_type :
  __verify_content_type__ (class_of self) = true ->
  py_in (content_type self) document = inr false ->
  get self allow w
  = (inl (BadRequest
            ("image content of type (" ++ py_str (content_type self)
             ++ ") was not an available type at analysis time for this image")
            (get_error_detail self)), w').
Proof.
  intros Hv Hin. unfold looked_up in *.
  unfold get, bind, db_catalog_image_get, lift.
  rewrite found, verify_analysis_status_allowed by exact allowed.
  now rewrite fetched, Hv, Hin.
Qed.

Lemma get_normalized :
  class_of self = ImageContentGetter
  \/ class_of self = ImageManifestContentGetter ->
  py_in (content_type self) document = inr true ->
  get self allow w = (content_response self document, w').
Proof.
  intros Hclass Hin. unfold looked_up in *.
  unfold get, bind, db_catalog_image_get, lift.
  rewrite found, verify_analysis_status_allowed by exact allowed.
  rewrite fetched. unfold hydrate_additional_data, ret.
  destruct Hclass as [-> | ->]; simpl; rewrite Hin; simpl;
    destruct (content_response self document); reflexivity.
Qed.

Lemma get_hook :
  __normalize_to_user_format_on_load__ (class_of self) = false ->
  __verify_content_type__ (class_of self) = false
  \/ py_in (content_type self) document = inr true ->
  get self allow w = hydrate_additional_data self document r w'.
Proof.
  intros Hn Hin. unfold looked_up in *.
  unfold get, bind, db_catalog_image_get, lift, ret.
  rewrite found, verify_analysis_status_allowed by exact allowed.
  rewrite fetched, Hn.
  destruct (__verify_content_type__ (class_of self)).
  - destruct Hin as [Hin | Hin]; [discriminate | now rewrite Hin].
  - reflexivity.
Qed.

End Fetched.

(** ** Calls are only added *)

Lemma appends_ret {A : Type} (a : A) : appends (ret a).
Proof. intros w. exists []. simpl. now rewrite app_nil_r. Qed.

Lemma appends_raise {A : Type} (e : exn) : appends (@raise A e).
Proof. intros w. exists []. simpl. now rewrite app_nil_r. Qed.

Lemma appends_lift {A : Type} (r : result A) : appends (lift r).
Proof. intros w. exists []. simpl. now rewrite app_nil_r. Qed.

Lemma appends_bind {A B : Type} (m : M A) (f : A -> M B) :
  appends m -> (forall a, appends (f a)) -> appends (bind m f).
Proof.
  intros Hm Hf w. unfold bind. destruct (Hm w) as [made Hmade].
  destruct (m w) as [[e | a] w1]; simpl in *.
  - now exists made.
  - destruct (Hf a w1) as [made' Hmade']. exists (made ++ made')%list.
    now rewrite Hmade', Hmade, app_assoc.
Qed.

Lemma appends_try_except {A : Type} (m : M A) (handler : exn -> M A) :
  appends m -> (forall e, appends (handler e)) -> appends (try_except m handler).
Proof.
  intros Hm Hh w. unfold try_except. destruct (Hm w) as [made Hmade].
  destruct (m w) as [[e | a] w1]; simpl in *.
  - destruct (Hh e w1) as [made' Hmade']. exists (made ++ made')%list.
    now rewrite Hmade', Hmade, app_assoc.
  - now exists made.
Qed.

Lemma appends_obj_mgr_put (account bucket key data : string) :
  appends (obj_mgr_put account bucket key data).
Proof.
  intros w. exists [ObjPut account bucket key data]. unfold obj_mgr_put.
  destruct (obj_put_raises w account bucket key data); reflexivity.
Qed.

Create HintDb appends.
#[local] Hint Resolve appends_ret appends_raise appends_lift appends_bind
  appends_try_except appends_obj_mgr_put : appends.

Lemma appends_migrate_dockerfile (self : getter) (r : image_report)
  (details : list image_detail_entry) (document : json) :
  appends (migrate_dockerfile self r details document).
Proof.
  induction details as [|d rest IH]; simpl; [auto with appends |].
  destruct (truthy_str (dockerfile d)); simpl; [| exact IH].
  destruct (decodebytes _); [auto with appends |].
  destruct (py_setitem _ _ _); auto 6 with appends.
Qed.

Lemma appends_hydrate_additional_data (self : getter) (document : json)
  (r : image_report) :
  appends (hydrate_additional_data self document r).
Proof.
  pose proof (appends_migrate_dockerfile self r) as Hmigrate.
  unfold hydrate_additional_data, hydrate_dockerfile, hydrate_multiple.
  destruct (class_of self); auto with appends.
  - apply appends_bind; [auto with appends |].
    intros present. destruct (truthy present); [auto with appends |].
    destruct (negb _); auto 6 with appends.
  - destruct (negb _); [auto with appends |].
    destruct (content_types self) as [[|t ts] |]; auto 8 with appends.
Qed.

Lemma get_calls_past_check (self : getter) (allow : bool) (w : world)
  (r : image_report) :
  db_images w (image_digest self) (account_id self) = Some r ->
  allowed_status allow (analysis_status r) ->
  exists made,
    calls (snd (get self allow w)) = (calls (fetched_in self w) ++ made)%list.
Proof.
  intros Hr Hs.
  destruct (get_image_content_data self (image_digest self) (looked_up self w))
    as [out w'] eqn:Hfetch.
  assert (Hw' : w' = fetched_in self w).
  { pose proof (get_image_content_data_world self (image_digest self)
                  (looked_up self w)) as H.
    rewrite Hfetch in H. exact H. }
  destruct out as [err | document].
  - rewrite (get_fetch_failed self allow w w' r Hr Hs err Hfetch).
    exists []. simpl. now rewrite app_nil_r, Hw'.
  - destruct (__verify_content_type__ (class_of self)) eqn:Hv.
    + destruct (py_in (content_type self) document) as [err | [|]] eqn:Hin.
      * rewrite (get_in_failed self allow w w' r Hr Hs document Hfetch err Hv Hin).
        exists []. simpl. now rewrite app_nil_r, Hw'.
      * destruct (__normalize_to_user_format_on_load__ (class_of self)) eqn:Hn.
        -- rewrite (get_normalized self allow w w' r Hr Hs document Hfetch).
           ++ exists []. simpl. now rewrite app_nil_r, Hw'.
           ++ destruct (class_of self); simpl in *; auto; discriminate.
           ++ exact Hin.
        -- rewrite (get_hook self allow w w' r Hr Hs document Hfetch Hn
                      (or_intror Hin)).
           rewrite Hw'. apply appends_hydrate_additional_data.
      * rewrite (get_missing_type self allow w w' r Hr Hs document Hfetch Hv Hin).
        exists []. simpl. now rewrite app_nil_r, Hw'.
    + assert (Hn : __normalize_to_user_format_on_load__ (class_of self) = false)
        by (destruct (class_of self); simpl in *; congruence).
      rewrite (get_hook self allow w w' r Hr Hs document Hfetch Hn
                 (or_introl Hv)).
      rewrite Hw'. apply appends_hydrate_additional_data.
Qed.

(** ** Missing record and analysis state *)

(** C5, amended. When the lookup of the image record returns nothing,
    [get] fails on every class of getter with the not-found error whose
    detail holds the account id, the content type of the getter and the
    image digest, and the only call it has made is the lookup: the archive
    is neither read nor written. The content type of the getter is the
    requested type for the getters of one type and None for the multiple
    getter, whose requested types are not in the detail. *)
Theorem missing_record_not_found (self : getter) (allow : bool) (w : world) :
  db_images w (image_digest self) (account_id self) = None ->
  fst (get self allow w)
  = inl (ResourceNotFound "Image not found"
           {| detail_account_id := account_id self;
              detail_content_type := content_type self;
              detail_image_digest := image_digest self |})
  /\ calls (snd (get self allow w))
     = (calls w
        ++ [DbCatalogImageGet (image_digest self) (account_id self)])%list
  /\ obj_data (snd (get self allow w)) = obj_data w
  /\ (forall c account content digest,
        self = init c account content digest ->
        content_type self = Some content)
  /\ (forall account requested digest,
        self = init_multiple account requested digest ->
        content_type self = None).
Proof.
  intros H. rewrite (get_not_found self allow w H).
  repeat split; intros; subst; reflexivity.
Qed.

(** C2, amended. For an image record that exists, the state check of
    [get] lets exactly the allowed statuses through: the complete state,
    and the working state as well when analyzing images are permitted.
    With an allowed status the check returns and [get] goes on to fetch the
    content document; with any other status [get] fails with the not-found
    error that names the status and carries the account id, the content
    type of the getter and the image digest, having made no call but the
    lookup. The content type of the getter is the requested type for the
    getters of one type and None for the multiple getter, whose requested
    types are not in the detail. *)
Theorem analysis_state_validation (self : getter) (allow : bool) (w : world)
  (r : image_report) :
  db_images w (image_digest self) (account_id self) = Some r ->
  (allowed_status false (analysis_status r)
   <-> analysis_status r = complete_state "analyze")
  /\ (allowed_status true (analysis_status r)
      <-> analysis_status r = complete_state "analyze"
          \/ analysis_status r = working_state "analyze")
  /\ (allowed_status allow (analysis_status r) ->
      verify_analysis_status self r allow (looked_up self w)
      = (inr tt, looked_up self w)
      /\ exists made,
          calls (snd (get self allow w))
          = (calls w
             ++ DbCatalogImageGet (image_digest self) (account_id self)
             :: ObjGet (account_id self) (content_bucket (class_of self))
                  (image_digest self)
             :: made)%list)
  /\ (~ allowed_status allow (analysis_status r) ->
      fst (get self allow w)
      = inl (ResourceNotFound
               ("image is not analyzed - analysis_status: "
                ++ analysis_status r)
               {| detail_account_id := account_id self;
                  detail_content_type := content_type self;
                  detail_image_digest := image_digest self |})
      /\ calls (snd (get self allow w))
         = (calls w
            ++ [DbCatalogImageGet (image_digest self) (account_id self)])%list)
  /\ (forall c account content digest,
        self = init c account content digest ->
        content_type self = Some content)
  /\ (forall account requested digest,
        self = init_multiple account requested digest ->
        content_type self = None).
Proof.
  intros Hr. split; [| split; [| split; [| split; [| split]]]];
    try (intros; subst; reflexivity).
  - unfold allowed_status. intuition congruence.
  - unfold allowed_status. intuition congruence.
  - intros Hs. split.
    + now apply verify_analysis_status_allowed.
    + destruct (get_calls_past_check self allow w r Hr Hs) as [made Hmade].
      exists made. rewrite Hmade. unfold fetched_in, looked_up. simpl.
      now rewrite <- !app_assoc.
  - intros Hs. rewrite (get_refused self allow w r Hr Hs). split; reflexivity.
Qed.

Lemma allowed_status_dec (allow : bool) (status : string) :
  {allowed_status allow status} + {~ allowed_status allow status}.
Proof.
  destruct (mem status
              ([complete_state "analyze"]
               ++ (if allow then [working_state "analyze"] else []))%list)
    eqn:H.
  - left. now apply allowed_status_mem.
  - right. intros Hs. apply allowed_status_mem in Hs. congruence.
Qed.

(** ** The manifest getter *)

Lemma py_in_manifest (key : option string) (payload : json) :
  py_in key (JObj [("manifest", payload)])
  = inr (match key with
         | Some k => String.eqb k "manifest"
         | None => false
         end).
Proof.
  destruct key as [k |]; simpl; [| reflexivity].
  now rewrite orb_false_r.
Qed.

(** C8. A manifest getter whose image record exists with an allowed status
    reads the archive once, in the category [manifest_data] under the
    digest of the request, and never the category of the content
    documents. The payload it fetches is wrapped under the key [manifest]
    before the requested type is selected: the result is the formatted
    payload when the requested type is [manifest], the bad-request error
    otherwise, so that [get] returns a result only for the requested type
    [manifest]. *)
Theorem manifest_fetch_and_wrapping (self : getter) (allow : bool) (w : world)
  (r : image_report) :
  class_of self = ImageManifestContentGetter ->
  db_images w (image_digest self) (account_id self) = Some r ->
  allowed_status allow (analysis_status r) ->
  calls (snd (get self allow w))
  = (calls w
     ++ [DbCatalogImageGet (image_digest self) (account_id self);
         ObjGet (account_id self) "manifest_data" (image_digest self)])%list
  /\ (forall payload,
        archive_document w (account_id self) "manifest_data" (image_digest self)
        = inr payload ->
        fst (get_image_content_data self (image_digest self) (looked_up self w))
        = inr (JObj [("manifest", payload)])
        /\ (content_type self = Some "manifest" ->
            fst (get self allow w)
            = make_image_content_response (Some "manifest") payload)
        /\ (content_type self <> Some "manifest" ->
            fst (get self allow w)
            = inl (BadRequest
                     ("image content of type (" ++ py_str (content_type self)
                      ++ ") was not an available type at analysis time for this image")
                     (get_error_detail self))))
  /\ (forall out, fst (get self allow w) = inr out ->
        content_type self = Some "manifest").
Proof.
  intros Hclass Hr Hs.
  pose proof (get_image_content_data_manifest self (image_digest self)
                (looked_up self w) Hclass) as Hfetch.
  assert (Hv : __verify_content_type__ (class_of self) = true) by now rewrite Hclass.
  assert (Hcalls : forall out,
             get self allow w
             = (out, log (ObjGet (account_id self) "manifest_data"
                            (image_digest self)) (looked_up self w)) ->
             calls (snd (get self allow w))
             = (calls w
                ++ [DbCatalogImageGet (image_digest self) (account_id self);
                    ObjGet (account_id self) "manifest_data"
                      (image_digest self)])%list).
  { intros out ->. simpl. now rewrite <- app_assoc. }
  change (archive_document (looked_up self w)) with (archive_document w)
    in Hfetch.
  destruct (archive_document w (account_id self) "manifest_data"
              (image_digest self)) as [err | payload] eqn:Hdoc.
  - pose proof (get_fetch_failed self allow w _ r Hr Hs _ Hfetch) as Hget.
    split; [now apply (Hcalls _ Hget) |].
    split; [intros payload [=] |].
    intros out. rewrite Hget. discriminate.
  - pose proof (py_in_manifest (content_type self) payload) as Hin.
    destruct (content_type self) as [k |] eqn:Hk.
    + destruct (String.eqb_spec k "manifest") as [-> | Hne].
      * pose proof (get_normalized self allow w _ r Hr Hs _ Hfetch
                      (or_intror Hclass)) as Hget.
        rewrite Hk in Hget. specialize (Hget Hin).
        assert (Hresp : content_response self (JObj [("manifest", payload)])
                        = make_image_content_response (Some "manifest") payload).
        { unfold content_response. rewrite Hk. reflexivity. }
        rewrite Hresp in Hget.
        split; [now apply (Hcalls _ Hget) |].
        split.
        -- intros p [= <-]. rewrite Hfetch, Hget. simpl. repeat split.
           intros H. congruence.
        -- intros out _. reflexivity.
      * pose proof (get_missing_type self allow w _ r Hr Hs _ Hfetch Hv) as Hget.
        rewrite Hk in Hget. specialize (Hget Hin).
        split; [now apply (Hcalls _ Hget) |].
        split.
        -- intros p [= <-]. rewrite Hfetch, Hget. simpl. repeat split.
           intros [= ->]. congruence.
        -- intros out. rewrite Hget. discriminate.
    + pose proof (get_missing_type self allow w _ r Hr Hs _ Hfetch Hv) as Hget.
      rewrite Hk in Hget. specialize (Hget Hin).
      split; [now apply (Hcalls _ Hget) |].
      split.
      * intros p [= <-]. rewrite Hfetch, Hget. simpl. repeat split.
        intros [=].
      * intros out. rewrite Hget. discriminate.
Qed.

(** ** Failures of the archive *)

Lemma get_image_content_data_failed (self : getter) (digest : string)
  (w : world) (err : exn) :
  archive_document w (account_id self) (content_bucket (class_of self)) digest
  = inl err ->
  get_image_content_data self digest w
  = (inl (make_anchore_exception err
            (match class_of self with
             | ImageManifestContentGetter =>
                 "cannot fetch content data " ++ py_str (content_type self)
                 ++ " from archive"
             | _ => "cannot fetch content data from archive"
             end) 500),
     log (ObjGet (account_id self) (content_bucket (class_of self)) digest) w).
Proof.
  intros Hdoc. destruct (class_of self) eqn:Hclass; simpl in *.
  - rewrite get_image_content_data_primary by congruence. now rewrite Hdoc.
  - rewrite get_image_content_data_manifest by congruence. now rewrite Hdoc.
  - rewrite get_image_content_data_primary by congruence. now rewrite Hdoc.
  - rewrite get_image_content_data_primary by congruence. now rewrite Hdoc.
Qed.

(** C4. When reading the content document fails, in the object store, in
    the parser or on the missing [document] entry, [get] raises what
    [make_anchore_exception] builds from the underlying exception, a fixed
    message (which for the manifest getter names the requested type) and
    the code 500 alone. No error detail is handed over: neither the account
    id nor the image digest takes part, and two requests of the same class
    and content type for different accounts and digests whose reads fail
    alike raise the same exception. *)
Theorem upstream_failure_without_request_detail (self other : getter)
  (allow : bool) (w w_other : world) (r r_other : image_report) (err : exn) :
  class_of other = class_of self ->
  content_type other = content_type self ->
  db_images w (image_digest self) (account_id self) = Some r ->
  db_images w_other (image_digest other) (account_id other) = Some r_other ->
  allowed_status allow (analysis_status r) ->
  allowed_status allow (analysis_status r_other) ->
  archive_document w (account_id self) (content_bucket (class_of self))
    (image_digest self) = inl err ->
  archive_document w_other (account_id other) (content_bucket (class_of other))
    (image_digest other) = inl err ->
  fst (get self allow w)
  = inl (make_anchore_exception err
           (match class_of self with
            | ImageManifestContentGetter =>
                "cannot fetch content data " ++ py_str (content_type self)
                ++ " from archive"
            | _ => "cannot fetch content data from archive"
            end) 500)
  /\ fst (get other allow w_other) = fst (get self allow w).
Proof.
  intros Hc Ht Hr Hr' Hs Hs' Hdoc Hdoc'.
  change (archive_document w) with (archive_document (looked_up self w)) in Hdoc.
  change (archive_document w_other)
    with (archive_document (looked_up other w_other)) in Hdoc'.
  apply get_image_content_data_failed in Hdoc, Hdoc'.
  rewrite (get_fetch_failed self allow w _ r Hr Hs _ Hdoc).
  rewrite (get_fetch_failed other allow w_other _ r_other Hr' Hs' _ Hdoc').
  simpl. rewrite Hc, Ht. split; reflexivity.
Qed.

(** ** The dockerfile getter *)

Lemma first_legacy_body_cons (d : image_detail_entry)
  (rest : list image_detail_entry) :
  first_legacy_body (d :: rest)
  = if truthy_str (dockerfile d) then dockerfile d else first_legacy_body rest.
Proof.
  unfold first_legacy_body. simpl. now destruct (truthy_str (dockerfile d)).
Qed.

Lemma first_legacy_body_not_empty (details : list image_detail_entry)
  (body : string) :
  first_legacy_body details = Some body -> body <> "".
Proof.
  induction details as [|d rest IH]; [discriminate |].
  rewrite first_legacy_body_cons.
  destruct (truthy_str (dockerfile d)) eqn:Ht; [| exact IH].
  intros Hd. rewrite Hd in Ht. simpl in Ht. intros ->. discriminate.
Qed.

(** The in-memory document and the world in which the loop of the
    migration ends. *)
Lemma migrate_dockerfile_run (self : getter) (r : image_report)
  (details : list image_detail_entry) (members : dict) (w : world) :
  migrate_dockerfile self r details (JObj members) w
  = match first_legacy_body details with
    | None => (inr (JObj members), w)
    | Some body =>
        match decodebytes body with
        | inl _ => (inr (JObj members), w)
        | inr text =>
            let migrated := JObj (dict_set "dockerfile" (JStr text) members) in
            (inr migrated,
             snd (obj_mgr_put (account_id self) "image_content_data"
                    (imageDigest r)
                    (json_dumps (JObj [("document", migrated)])) w))
        end
    end.
Proof.
  induction details as [|d rest IH]; [reflexivity |].
  rewrite first_legacy_body_cons. simpl.
  destruct (truthy_str (dockerfile d)) eqn:Ht; simpl; [| exact IH].
  destruct (dockerfile d) as [body |]; [| discriminate]. simpl.
  destruct (decodebytes body) as [err | text]; [reflexivity |].
  unfold try_except, bind, obj_mgr_put, ret.
  destruct (obj_put_raises w _ _ _ _); reflexivity.
Qed.

Lemma content_response_member (self : getter) (k : string) (members : dict)
  (payload : json) :
  content_type self = Some k ->
  dict_get k members = Some payload ->
  content_response self (JObj members)
  = make_image_content_response (Some k) payload.
Proof.
  intros Hk Hget. unfold content_response. rewrite Hk. simpl. now rewrite Hget.
Qed.

Lemma try_except_lift_same {A : Type} (x : result A) (w : world) :
  try_except (lift x) (fun _ => lift x) w = (x, w).
Proof. unfold try_except, lift. now destruct x. Qed.

Lemma py_get_dockerfile (members : dict) :
  py_get (JObj members) "dockerfile" = inr (dockerfile_entry members).
Proof.
  unfold dockerfile_entry. simpl. now destruct (dict_get "dockerfile" members).
Qed.

Section DockerfileHook.

Variables (self : getter) (r : image_report) (members : dict) (w : world).

Lemma hydrate_dockerfile_present :
  truthy (dockerfile_entry members) = true ->
  hydrate_dockerfile self (JObj members) r w
  = (content_response self (JObj members), w).
Proof.
  intros Ht. unfold hydrate_dockerfile, bind, lift.
  rewrite py_get_dockerfile. now rewrite Ht.
Qed.

Lemma hydrate_dockerfile_other_mode :
  dockerfile_mode r <> Some "Actual" ->
  hydrate_dockerfile self (JObj members) r w
  = (content_response self (JObj members), w).
Proof.
  intros Hmode. unfold hydrate_dockerfile, bind.
  assert (Hb : match dockerfile_mode r with
               | Some mode => String.eqb mode "Actual"
               | None => false
               end = false).
  { destruct (dockerfile_mode r) as [mode |]; [| reflexivity].
    destruct (String.eqb_spec mode "Actual"); [congruence | reflexivity]. }
  rewrite py_get_dockerfile, Hb. unfold lift at 1. simpl.
  destruct (truthy _); [reflexivity | apply try_except_lift_same].
Qed.

Lemma hydrate_dockerfile_actual :
  truthy (dockerfile_entry members) = false ->
  dockerfile_mode r = Some "Actual" ->
  hydrate_dockerfile self (JObj members) r w
  = (result_bind
       (fst (migrate_dockerfile self r (image_detail r) (JObj members) w))
       (content_response self),
     snd (migrate_dockerfile self r (image_detail r) (JObj members) w)).
Proof.
  intros Ht Hmode. unfold hydrate_dockerfile, bind at 1, lift at 1.
  rewrite py_get_dockerfile, Ht, Hmode. simpl. unfold bind, lift.
  destruct (migrate_dockerfile self r (image_detail r) (JObj members) w)
    as [[err | migrated] w']; reflexivity.
Qed.

(** The hook leaves the document as fetched unless a legacy body is found
    and decoded in mode Actual while the entry is empty. *)
Lemma hydrate_dockerfile_unmigrated :
  truthy (dockerfile_entry members) = true
  \/ dockerfile_mode r <> Some "Actual"
  \/ first_legacy_body (image_detail r) = None
  \/ (exists body err,
        first_legacy_body (image_detail r) = Some body
        /\ decodebytes body = inl err) ->
  hydrate_dockerfile self (JObj members) r w
  = (content_response self (JObj members), w).
Proof.
  intros [Ht | [Hmode | Hbody]].
  - now apply hydrate_dockerfile_present.
  - now apply hydrate_dockerfile_other_mode.
  - destruct (truthy (dockerfile_entry members)) eqn:Ht; [now apply hydrate_dockerfile_present |].
    destruct (dockerfile_mode r) as [mode |] eqn:Hmode;
      [| apply hydrate_dockerfile_other_mode; congruence].
    destruct (String.eqb_spec mode "Actual") as [-> | Hne];
      [| apply hydrate_dockerfile_other_mode; congruence].
    rewrite hydrate_dockerfile_actual by assumption.
    rewrite migrate_dockerfile_run.
    destruct Hbody as [Hnone | (body & err & Hsome & Hdec)].
    + now rewrite Hnone.
    + now rewrite Hsome, Hdec.
Qed.

Lemma hydrate_dockerfile_migrated (body text : string) :
  truthy (dockerfile_entry members) = false ->
  dockerfile_mode r = Some "Actual" ->
  first_legacy_body (image_detail r) = Some body ->
  decodebytes body = inr text ->
  let migrated := JObj (dict_set "dockerfile" (JStr text) members) in
  hydrate_dockerfile self (JObj members) r w
  = (content_response self migrated,
     snd (obj_mgr_put (account_id self) "image_content_data" (imageDigest r)
            (json_dumps (JObj [("document", migrated)])) w)).
Proof.
  intros Ht Hmode Hbody Hdec migrated.
  rewrite hydrate_dockerfile_actual by assumption.
  rewrite migrate_dockerfile_run, Hbody, Hdec. reflexivity.
Qed.

End DockerfileHook.

(** A dockerfile getter whose requested type is a key of the fetched
    document reaches its hook with the document as fetched. *)
Lemma get_dockerfile_hook (self : getter) (allow : bool) (w : world)
  (r : image_report) (k : string) (members : dict) :
  class_of self = ImageDockerfileContentGetter ->
  content_type self = Some k ->
  db_images w (image_digest self) (account_id self) = Some r ->
  allowed_status allow (analysis_status r) ->
  archive_document w (account_id self) "image_content_data" (image_digest self)
  = inr (JObj members) ->
  In k (dict_keys members) ->
  get self allow w
  = hydrate_dockerfile self (JObj members) r (fetched_in self w).
Proof.
  intros Hclass Hk Hr Hs Hdoc Hin.
  assert (Hfetch :
            get_image_content_data self (image_digest self) (looked_up self w)
            = (inr (JObj members), fetched_in self w)).
  { rewrite get_image_content_data_primary by congruence.
    change (archive_document (looked_up self w)) with (archive_document w).
    rewrite Hdoc. unfold fetched_in. now rewrite Hclass. }
  rewrite (get_hook self allow w _ r Hr Hs _ Hfetch).
  - unfold hydrate_additional_data. now rewrite Hclass.
  - now rewrite Hclass.
  - right. rewrite Hk. simpl. apply mem_In in Hin. now rewrite Hin.
Qed.

(** ** Migration on read *)

Lemma obj_data_after_put (account bucket key data : string) (w : world) :
  obj_put_raises w account bucket key data = None ->
  obj_data (snd (obj_mgr_put account bucket key data w)) account bucket key
  = inr data.
Proof.
  intros H. unfold obj_mgr_put. rewrite H. simpl.
  now rewrite !String.eqb_refl.
Qed.

Lemma obj_mgr_put_keeps (account bucket key data : string) (w : world) :
  db_images (snd (obj_mgr_put account bucket key data w)) = db_images w
  /\ obj_put_raises (snd (obj_mgr_put account bucket key data w))
     = obj_put_raises w.
Proof.
  unfold obj_mgr_put.
  destruct (obj_put_raises w account bucket key data); split; reflexivity.
Qed.

Lemma obj_mgr_put_same_data (account bucket key data : string) (w : world) :
  obj_data w account bucket key = inr data ->
  obj_data (snd (obj_mgr_put account bucket key data w)) account bucket key
  = inr data.
Proof.
  intros H. unfold obj_mgr_put.
  destruct (obj_put_raises w account bucket key data); simpl.
  - exact H.
  - now rewrite !String.eqb_refl.
Qed.

Lemma archive_document_of_data (w : world) (account bucket key data : string) :
  obj_data w account bucket key = inr data ->
  archive_document w account bucket key
  = result_bind (json_loads data)
      (fun envelope => py_getitem envelope (Some "document")).
Proof. intros H. unfold archive_document. now rewrite H. Qed.

(** C1, amended. For an image record in mode Actual whose stored content
    document has the key [dockerfile] with an empty or null value, and
    whose first image detail with a non-empty legacy body holds a valid
    base64 body, [get] for the type [dockerfile] returns the formatted
    decoding of that body and, when the object store accepts the write and
    the written bytes parse back, leaves under the same key a document
    whose [dockerfile] entry is the decoded text; a second [get] returns
    the same output and leaves the same document. *)
Theorem dockerfile_migration_on_read (self : getter) (allow : bool) (w : world)
  (r : image_report) (members : dict) (body text : string) :
  class_of self = ImageDockerfileContentGetter ->
  content_type self = Some "dockerfile" ->
  db_images w (image_digest self) (account_id self) = Some r ->
  imageDigest r = image_digest self ->
  allowed_status allow (analysis_status r) ->
  dockerfile_mode r = Some "Actual" ->
  first_legacy_body (image_detail r) = Some body ->
  decodebytes body = inr text ->
  archive_document w (account_id self) "image_content_data" (image_digest self)
  = inr (JObj members) ->
  In "dockerfile" (dict_keys members) ->
  truthy (dockerfile_entry members) = false ->
  let migrated := JObj (dict_set "dockerfile" (JStr text) members) in
  let jsonbytes := json_dumps (JObj [("document", migrated)]) in
  obj_put_raises w (account_id self) "image_content_data" (image_digest self)
    jsonbytes = None ->
  json_loads jsonbytes = inr (JObj [("document", migrated)]) ->
  let after := snd (get self allow w) in
  fst (get self allow w)
  = make_image_content_response (Some "dockerfile") (JStr text)
  /\ obj_data after (account_id self) "image_content_data" (image_digest self)
     = inr jsonbytes
  /\ archive_document after (account_id self) "image_content_data"
       (image_digest self) = inr migrated
  /\ py_getitem migrated (Some "dockerfile") = inr (JStr text)
  /\ fst (get self allow after) = fst (get self allow w)
  /\ archive_document (snd (get self allow after)) (account_id self)
       "image_content_data" (image_digest self) = inr migrated.
Proof.
  intros Hclass Hk Hr Hdigest Hs Hmode Hbody Hdec Hdoc Hin Hempty
    migrated jsonbytes Hput Hloads after.
  assert (Hresp : content_response self migrated
                  = make_image_content_response (Some "dockerfile") (JStr text)).
  { apply content_response_member; [exact Hk | apply dict_get_set_same]. }
  (* the first call *)
  pose proof (get_dockerfile_hook self allow w r _ members Hclass Hk Hr Hs
                Hdoc Hin) as Hget.
  rewrite (hydrate_dockerfile_migrated self r members _ body text Hempty Hmode
             Hbody Hdec) in Hget.
  fold migrated in Hget. fold jsonbytes in Hget.
  rewrite Hdigest, Hresp in Hget.
  assert (Hdata : obj_data after (account_id self) "image_content_data"
                    (image_digest self) = inr jsonbytes).
  { subst after. rewrite Hget. simpl snd. apply obj_data_after_put.
    exact Hput. }
  assert (Hafter : archive_document after (account_id self)
                     "image_content_data" (image_digest self) = inr migrated).
  { rewrite (archive_document_of_data _ _ _ _ _ Hdata), Hloads. reflexivity. }
  assert (Hr' : db_images after (image_digest self) (account_id self) = Some r).
  { subst after. rewrite Hget. simpl snd.
    destruct (obj_mgr_put_keeps (account_id self) "image_content_data"
                (image_digest self) jsonbytes (fetched_in self w)) as [-> _].
    exact Hr. }
  (* the second call *)
  assert (Hin' : In "dockerfile"
                   (dict_keys (dict_set "dockerfile" (JStr text) members))).
  { apply dict_keys_set. now left. }
  pose proof (get_dockerfile_hook self allow after r _ _ Hclass Hk Hr' Hs
                Hafter Hin') as Hget'.
  assert (Hentry : dockerfile_entry (dict_set "dockerfile" (JStr text) members)
                   = JStr text).
  { unfold dockerfile_entry. now rewrite dict_get_set_same. }
  assert (Hsecond :
            fst (get self allow after)
            = make_image_content_response (Some "dockerfile") (JStr text)
            /\ obj_data (snd (get self allow after)) (account_id self)
                 "image_content_data" (image_digest self) = inr jsonbytes).
  { rewrite Hget'. destruct (truthy (JStr text)) eqn:Htext.
    - rewrite hydrate_dockerfile_unmigrated
        by (left; rewrite Hentry; exact Htext).
      fold migrated. rewrite Hresp. split; [reflexivity | exact Hdata].
    - rewrite (hydrate_dockerfile_migrated self r _ _ body text)
        by (try rewrite Hentry; assumption).
      rewrite dict_set_idempotent. fold migrated. fold jsonbytes.
      rewrite Hresp, Hdigest. split; [reflexivity |].
      simpl snd. apply obj_mgr_put_same_data. exact Hdata. }
  destruct Hsecond as [Hout' Hdata'].
  repeat split.
  - now rewrite Hget.
  - exact Hdata.
  - exact Hafter.
  - subst migrated. simpl. now rewrite dict_get_set_same.
  - rewrite Hout', Hget. reflexivity.
  - rewrite (archive_document_of_data _ _ _ _ _ Hdata'), Hloads. reflexivity.
Qed.

Lemma calls_fetched_in (self : getter) (w : world) :
  calls (fetched_in self w)
  = (calls w
     ++ [DbCatalogImageGet (image_digest self) (account_id self);
         ObjGet (account_id self) (content_bucket (class_of self))
           (image_digest self)])%list.
Proof. unfold fetched_in, looked_up. simpl. now rewrite <- app_assoc. Qed.

(** C9. A failure inside the migration of the dockerfile getter does not
    reach the caller. When the legacy body does not decode, [get] returns
    the formatted payload of the requested type from the document as
    fetched and writes nothing; when the body decodes and the object store
    refuses the write, [get] returns the formatted payload of the requested
    type from the in-memory document, which already holds the decoded
    text, and the archive is left as it was. In both cases the outcome of
    [get] is the outcome of the formatter. *)
Theorem migration_failure_is_not_fatal (self : getter) (allow : bool)
  (w : world) (r : image_report) (k : string) (members : dict)
  (payload : json) (body : string) :
  class_of self = ImageDockerfileContentGetter ->
  content_type self = Some k ->
  db_images w (image_digest self) (account_id self) = Some r ->
  allowed_status allow (analysis_status r) ->
  archive_document w (account_id self) "image_content_data" (image_digest self)
  = inr (JObj members) ->
  dict_get k members = Some payload ->
  truthy (dockerfile_entry members) = false ->
  dockerfile_mode r = Some "Actual" ->
  first_legacy_body (image_detail r) = Some body ->
  (forall err,
      decodebytes body = inl err ->
      fst (get self allow w) = make_image_content_response (Some k) payload
      /\ calls (snd (get self allow w))
         = (calls w
            ++ [DbCatalogImageGet (image_digest self) (account_id self);
                ObjGet (account_id self) "image_content_data"
                  (image_digest self)])%list)
  /\ (forall text err,
        decodebytes body = inr text ->
        let migrated := JObj (dict_set "dockerfile" (JStr text) members) in
        let jsonbytes := json_dumps (JObj [("document", migrated)]) in
        obj_put_raises w (account_id self) "image_content_data" (imageDigest r)
          jsonbytes = Some err ->
        fst (get self allow w)
        = make_image_content_response (Some k)
            (if String.eqb k "dockerfile" then JStr text else payload)
        /\ obj_data (snd (get self allow w)) = obj_data w
        /\ calls (snd (get self allow w))
           = (calls w
              ++ [DbCatalogImageGet (image_digest self) (account_id self);
                  ObjGet (account_id self) "image_content_data"
                    (image_digest self);
                  ObjPut (account_id self) "image_content_data"
                    (imageDigest r) jsonbytes])%list).
Proof.
  intros Hclass Hk Hr Hs Hdoc Hpayload Hempty Hmode Hbody.
  assert (Hin : In k (dict_keys members))
    by (apply dict_get_keys; now exists payload).
  pose proof (get_dockerfile_hook self allow w r k members Hclass Hk Hr Hs
                Hdoc Hin) as Hget.
  split.
  - intros err Hdec. rewrite Hget.
    rewrite hydrate_dockerfile_unmigrated
      by (right; right; right; now exists body, err).
    rewrite (content_response_member self k members payload Hk Hpayload).
    split; [reflexivity |]. simpl snd.
    now rewrite calls_fetched_in, Hclass.
  - intros text err Hdec migrated jsonbytes Hput. rewrite Hget.
    rewrite (hydrate_dockerfile_migrated self r members _ body text Hempty
               Hmode Hbody Hdec).
    fold migrated. fold jsonbytes. unfold obj_mgr_put.
    change (obj_put_raises (fetched_in self w)) with (obj_put_raises w).
    rewrite Hput. simpl fst. simpl snd. repeat split.
    + apply content_response_member; [exact Hk |].
      destruct (String.eqb_spec k "dockerfile") as [-> | Hne].
      * apply dict_get_set_same.
      * rewrite dict_get_set_other by exact Hne. exact Hpayload.
    + simpl. rewrite <- !app_assoc. simpl. now rewrite Hclass.
Qed.

Lemma hydrate_dockerfile_not_a_dict (self : getter) (document : json)
  (r : image_report) (w : world) :
  (forall members, document <> JObj members) ->
  hydrate_dockerfile self document r w = (inl (AttributeError "get"), w).
Proof.
  intros H. unfold hydrate_dockerfile, bind, lift.
  destruct document; try reflexivity. now elim (H members).
Qed.

Lemma exists_put_app (made : list call) (w : world) (made' : list call) :
  (calls w ++ made)%list = (calls w ++ made')%list ->
  existsb is_put made = true -> existsb is_put made' = true.
Proof. intros H. apply app_inv_head in H. now subst. Qed.

(** Closes a goal in which the calls added, known to hold a write, are
    found to be reads only. *)
Ltac no_write Hcalls Hput :=
  let H := fresh in
  pose proof (exists_put_app _ _ _ (eq_sym Hcalls) Hput) as H;
  discriminate H.

(** C10, amended. A dockerfile getter asked for the type [dockerfile]
    migrates on the truth value of the entry, and only behind the presence
    check.
    A stored document whose key [dockerfile] is present with an empty or
    null value passes the check and reaches the hook, which in mode Actual
    decodes the first legacy body and writes the migrated document; a
    document without the key is refused with the bad-request error and no
    write. Hence whenever [get] for the type [dockerfile] writes to the
    object store, the document it fetched had the key [dockerfile] with an
    empty or null value. *)
Theorem migration_only_through_empty_entry (self : getter) (allow : bool)
  (w : world) :
  class_of self = ImageDockerfileContentGetter ->
  content_type self = Some "dockerfile" ->
  (forall r members entry,
      db_images w (image_digest self) (account_id self) = Some r ->
      allowed_status allow (analysis_status r) ->
      archive_document w (account_id self) "image_content_data"
        (image_digest self) = inr (JObj members) ->
      dict_get "dockerfile" members = Some entry ->
      truthy entry = false ->
      get self allow w
      = hydrate_dockerfile self (JObj members) r (fetched_in self w)
      /\ (forall body text,
            dockerfile_mode r = Some "Actual" ->
            first_legacy_body (image_detail r) = Some body ->
            decodebytes body = inr text ->
            calls (snd (get self allow w))
            = (calls w
               ++ [DbCatalogImageGet (image_digest self) (account_id self);
                   ObjGet (account_id self) "image_content_data"
                     (image_digest self);
                   ObjPut (account_id self) "image_content_data"
                     (imageDigest r)
                     (json_dumps
                        (JObj [("document",
                                JObj (dict_set "dockerfile" (JStr text)
                                        members))]))])%list))
  /\ (forall r members,
        db_images w (image_digest self) (account_id self) = Some r ->
        allowed_status allow (analysis_status r) ->
        archive_document w (account_id self) "image_content_data"
          (image_digest self) = inr (JObj members) ->
        dict_get "dockerfile" members = None ->
        fst (get self allow w)
        = inl (BadRequest
                 "image content of type (dockerfile) was not an available type at analysis time for this image"
                 (get_error_detail self))
        /\ calls (snd (get self allow w))
           = (calls w
              ++ [DbCatalogImageGet (image_digest self) (account_id self);
                  ObjGet (account_id self) "image_content_data"
                    (image_digest self)])%list)
  /\ (forall made,
        calls (snd (get self allow w)) = (calls w ++ made)%list ->
        existsb is_put made = true ->
        exists members entry,
          archive_document w (account_id self) "image_content_data"
            (image_digest self) = inr (JObj members)
          /\ dict_get "dockerfile" members = Some entry
          /\ truthy entry = false).
Proof.
  intros Hclass Hk.
  assert (Hv : __verify_content_type__ (class_of self) = true) by now rewrite Hclass.
  assert (Hn : __normalize_to_user_format_on_load__ (class_of self) = false)
    by now rewrite Hclass.
  assert (Hbucket : content_bucket (class_of self) = "image_content_data")
    by now rewrite Hclass.
  assert (Hfetch : forall document,
             archive_document w (account_id self) "image_content_data"
               (image_digest self) = inr document ->
             get_image_content_data self (image_digest self) (looked_up self w)
             = (inr document, fetched_in self w)).
  { intros document Hdoc.
    rewrite get_image_content_data_primary by congruence.
    change (archive_document (looked_up self w)) with (archive_document w).
    rewrite Hdoc. unfold fetched_in. now rewrite Hbucket. }
  split; [| split].
  - intros r members entry Hr Hs Hdoc Hentry Hempty.
    assert (Hin : In "dockerfile" (dict_keys members))
      by (apply dict_get_keys; now exists entry).
    pose proof (get_dockerfile_hook self allow w r _ members Hclass Hk Hr Hs
                  Hdoc Hin) as Hget.
    split; [exact Hget |].
    intros body text Hmode Hbody Hdec. rewrite Hget.
    rewrite (hydrate_dockerfile_migrated self r members _ body text).
    + simpl snd. unfold obj_mgr_put.
      destruct (obj_put_raises _ _ _ _ _); simpl;
        rewrite <- !app_assoc; simpl; now rewrite Hbucket.
    + unfold dockerfile_entry. now rewrite Hentry.
    + exact Hmode.
    + exact Hbody.
    + exact Hdec.
  - intros r members Hr Hs Hdoc Hnone.
    rewrite (get_missing_type self allow w _ r Hr Hs _ (Hfetch _ Hdoc) Hv).
    + rewrite Hk. split; [reflexivity |]. simpl snd.
      now rewrite calls_fetched_in, Hbucket.
    + rewrite Hk. simpl.
      destruct (mem "dockerfile" (dict_keys members)) eqn:Hmem;
        [| reflexivity].
      apply mem_In, dict_get_keys in Hmem. destruct Hmem as [v Hv'].
      congruence.
  - intros made Hcalls Hput.
    assert (Hquiet : forall out,
               get self allow w = (out, fetched_in self w) -> False).
    { intros out Hget. rewrite Hget in Hcalls. simpl snd in Hcalls.
      rewrite calls_fetched_in in Hcalls. no_write Hcalls Hput. }
    destruct (db_images w (image_digest self) (account_id self)) as [r |]
      eqn:Hr.
    2:{ rewrite (get_not_found self allow w Hr) in Hcalls.
        no_write Hcalls Hput. }
    destruct (allowed_status_dec allow (analysis_status r)) as [Hs | Hs].
    2:{ rewrite (get_refused self allow w r Hr Hs) in Hcalls.
        no_write Hcalls Hput. }
    destruct (archive_document w (account_id self) "image_content_data"
                (image_digest self)) as [err | document] eqn:Hdoc.
    { exfalso. apply (Hquiet (inl (make_anchore_exception err
                        "cannot fetch content data from archive" 500))).
      apply (get_fetch_failed self allow w _ r Hr Hs).
      rewrite get_image_content_data_primary by congruence.
      change (archive_document (looked_up self w)) with (archive_document w).
      rewrite Hdoc. unfold fetched_in. now rewrite Hbucket. }
    specialize (Hfetch document eq_refl).
    destruct (py_in (content_type self) document) as [err | [|]] eqn:Hin.
    + exfalso. apply (Hquiet (inl err)).
      exact (get_in_failed self allow w _ r Hr Hs _ Hfetch err Hv Hin).
    + pose proof (get_hook self allow w _ r Hr Hs _ Hfetch Hn (or_intror Hin))
        as Hget.
      unfold hydrate_additional_data in Hget. rewrite Hclass in Hget.
      assert (Hdict : {members | document = JObj members}
                      + {forall members, document <> JObj members}).
      { destruct document; try (right; discriminate). left. now exists members. }
      destruct Hdict as [[members ->] | Hother].
      * rewrite Hk in Hin. simpl in Hin. injection Hin as Hin.
        apply mem_In, dict_get_keys in Hin. destruct Hin as [entry Hentry].
        exists members, entry. split; [reflexivity |]. split; [exact Hentry |].
        destruct (truthy entry) eqn:Ht; [| reflexivity].
        exfalso. apply (Hquiet (content_response self (JObj members))).
        rewrite Hget. apply hydrate_dockerfile_unmigrated. left.
        unfold dockerfile_entry. now rewrite Hentry.
      * exfalso. apply (Hquiet (inl (AttributeError "get"))).
        rewrite Hget. now apply hydrate_dockerfile_not_a_dict.
    + exfalso. eapply Hquiet.
      exact (get_missing_type self allow w _ r Hr Hs _ Hfetch Hv Hin).
Qed.

(** ** The presence check of the requested type *)

Lemma dockerfile_mode_dec (r : image_report) :
  {dockerfile_mode r = Some "Actual"} + {dockerfile_mode r <> Some "Actual"}.
Proof.
  destruct (dockerfile_mode r) as [mode |]; [| right; discriminate].
  destruct (String.eqb_spec mode "Actual") as [-> | Hne];
    [now left | right; congruence].
Qed.

(** C6, amended. For the getters that verify the content type (the base,
    manifest and dockerfile getters), a requested type that is not a key of
    the fetched document makes [get] fail with the bad-request error. A
    requested type that is present with an empty payload makes [get]
    return what the formatter gives for that payload, the empty result,
    except when the dockerfile getter migrates: asked for [dockerfile] in
    mode Actual with a legacy body that decodes, it replaces the empty
    payload by the decoded text before formatting. *)
Theorem single_type_presence_check (self : getter) (allow : bool) (w : world)
  (r : image_report) (k : string) (members : dict) :
  __verify_content_type__ (class_of self) = true ->
  content_type self = Some k ->
  db_images w (image_digest self) (account_id self) = Some r ->
  allowed_status allow (analysis_status r) ->
  fst (get_image_content_data self (image_digest self) (looked_up self w))
  = inr (JObj members) ->
  (~ In k (dict_keys members) ->
   fst (get self allow w)
   = inl (BadRequest
            ("image content of type (" ++ k
             ++ ") was not an available type at analysis time for this image")
            {| detail_account_id := account_id self;
               detail_content_type := Some k;
               detail_image_digest := image_digest self |}))
  /\ (forall payload empty,
        dict_get k members = Some payload ->
        truthy payload = false ->
        make_image_content_response (Some k) payload = inr empty ->
        ~ migration_applies self r ->
        fst (get self allow w) = inr empty).
Proof.
  intros Hv Hk Hr Hs Hdoc.
  destruct (get_image_content_data self (image_digest self) (looked_up self w))
    as [out w'] eqn:Hfetch.
  simpl in Hdoc. subst out.
  split.
  - intros Hin.
    rewrite (get_missing_type self allow w w' r Hr Hs _ Hfetch Hv).
    + unfold get_error_detail. now rewrite Hk.
    + rewrite Hk. simpl. apply mem_false in Hin. now rewrite Hin.
  - intros payload empty Hpayload Hempty Hformat Hno.
    assert (Hin : py_in (content_type self) (JObj members) = inr true).
    { rewrite Hk. simpl.
      assert (H : In k (dict_keys members))
        by (apply dict_get_keys; now exists payload).
      apply mem_In in H. now rewrite H. }
    pose proof (content_response_member self k members payload Hk Hpayload)
      as Hresp.
    destruct (class_of self) eqn:Hclass; try discriminate Hv.
    + rewrite (get_normalized self allow w w' r Hr Hs _ Hfetch
                 (or_introl Hclass) Hin).
      simpl. now rewrite Hresp.
    + rewrite (get_normalized self allow w w' r Hr Hs _ Hfetch
                 (or_intror Hclass) Hin).
      simpl. now rewrite Hresp.
    + rewrite (get_hook self allow w w' r Hr Hs _ Hfetch)
        by (rewrite Hclass; auto).
      unfold hydrate_additional_data. rewrite Hclass.
      assert (Hkeep : hydrate_dockerfile self (JObj members) r w'
                      = (content_response self (JObj members), w')
                      -> fst (hydrate_dockerfile self (JObj members) r w')
                         = inr empty).
      { intros ->. simpl. now rewrite Hresp. }
      destruct (truthy (dockerfile_entry members)) eqn:Hentry.
      { apply Hkeep, hydrate_dockerfile_unmigrated. now left. }
      destruct (dockerfile_mode_dec r) as [Hmode | Hmode].
      2:{ apply Hkeep, hydrate_dockerfile_unmigrated. right. now left. }
      destruct (first_legacy_body (image_detail r)) as [body |] eqn:Hbody.
      2:{ apply Hkeep, hydrate_dockerfile_unmigrated. right. right. now left. }
      destruct (decodebytes body) as [err | text] eqn:Hdec.
      { apply Hkeep, hydrate_dockerfile_unmigrated. right. right. right.
        now exists body, err. }
      rewrite (hydrate_dockerfile_migrated self r members w' body text Hentry
                 Hmode Hbody Hdec).
      simpl fst.
      destruct (String.eqb_spec k "dockerfile") as [-> | Hne].
      * exfalso. apply Hno. repeat split; try assumption.
        now exists body, text.
      * rewrite (content_response_member self k _ payload Hk); [exact Hformat |].
        rewrite dict_get_set_other by exact Hne. exact Hpayload.
Qed.

(** ** The multiple getter *)

Lemma get_multiple_hook (self : getter) (allow : bool) (w : world)
  (r : image_report) (document : json) :
  class_of self = MultipleContentTypesGetter ->
  db_images w (image_digest self) (account_id self) = Some r ->
  allowed_status allow (analysis_status r) ->
  archive_document w (account_id self) "image_content_data" (image_digest self)
  = inr document ->
  get self allow w = hydrate_multiple self document r (fetched_in self w).
Proof.
  intros Hclass Hr Hs Hdoc.
  assert (Hfetch :
            get_image_content_data self (image_digest self) (looked_up self w)
            = (inr document, fetched_in self w)).
  { rewrite get_image_content_data_primary by congruence.
    change (archive_document (looked_up self w)) with (archive_document w).
    rewrite Hdoc. unfold fetched_in. now rewrite Hclass. }
  rewrite (get_hook self allow w _ r Hr Hs _ Hfetch).
  - unfold hydrate_additional_data. now rewrite Hclass.
  - now rewrite Hclass.
  - left. now rewrite Hclass.
Qed.

Section Gather.

Variables (self : getter) (requested : list string).
Hypothesis selection : content_types self = Some (map lower requested).
Hypothesis no_empty_type : ~ In "" image_content_types.

Lemma is_content_type_match_rule (key : string) :
  exists matched,
    _is_content_type_match self key = inr matched
    /\ (matched = true <-> requested_match requested key).
Proof.
  unfold _is_content_type_match, requested_match. rewrite selection.
  destruct (String.eqb_spec key "") as [-> | Hkey]; simpl.
  - exists false. split; [reflexivity |]. intuition congruence.
  - destruct (mem key image_content_types) eqn:Hsup; simpl.
    + apply mem_In in Hsup.
      destruct (mem "all" (map lower requested)) eqn:Hall.
      * exists true. apply mem_In in Hall. tauto.
      * exists (mem (lower key) (map lower requested)).
        split; [reflexivity |]. rewrite mem_In. apply mem_false in Hall. tauto.
    + exists false. split; [reflexivity |]. apply mem_false in Hsup.
      intuition congruence.
Qed.

Lemma gather_keys (items results gathered : dict) :
  gather self items results = inr gathered ->
  forall key,
    In key (dict_keys gathered)
    <-> In key (dict_keys results)
        \/ (In key (dict_keys items) /\ requested_match requested key).
Proof.
  revert results.
  induction items as [|[c_type packages] rest IH]; intros results Hg key.
  - injection Hg as <-. simpl. tauto.
  - simpl in Hg.
    destruct (is_content_type_match_rule c_type) as (matched & Hm & Hrule).
    rewrite Hm in Hg. simpl in Hg. destruct matched.
    + destruct (make_image_content_response (Some c_type) packages)
        as [err | response]; [discriminate |]. simpl in Hg.
      rewrite (IH _ Hg key), dict_keys_set. simpl.
      assert (Hc : requested_match requested c_type) by now apply Hrule.
      split.
      * intros [[-> | H] | [H1 H2]]; auto.
      * intros [H | [[<- | H1] H2]]; auto.
    + rewrite (IH _ Hg key). simpl.
      assert (Hc : ~ requested_match requested c_type)
        by (intros H; apply Hrule in H; discriminate).
      split.
      * intros [H | [H1 H2]]; auto.
      * intros [H | [[<- | H1] H2]]; auto. contradiction.
Qed.

Lemma gather_values (items results gathered : dict) :
  gather self items results = inr gathered ->
  forall key response,
    dict_get key gathered = Some response ->
    dict_get key results = Some response
    \/ exists payload,
        In (key, payload) items
        /\ make_image_content_response (Some key) payload = inr response.
Proof.
  revert results.
  induction items as [|[c_type packages] rest IH];
    intros results Hg key response Hget.
  - injection Hg as <-. now left.
  - simpl in Hg.
    destruct (_is_content_type_match self c_type) as [err | matched];
      [discriminate |].
    simpl in Hg. destruct matched.
    + destruct (make_image_content_response (Some c_type) packages)
        as [err | formatted] eqn:Hf; [discriminate |]. simpl in Hg.
      destruct (IH _ Hg key response Hget) as [H | (payload & Hin & Hp)].
      * destruct (String.eqb_spec key c_type) as [-> | Hne].
        -- rewrite dict_get_set_same in H. injection H as <-.
           right. exists packages. split; [now left | exact Hf].
        -- rewrite dict_get_set_other in H by exact Hne. now left.
      * right. exists payload. split; [now right | exact Hp].
    + destruct (IH _ Hg key response Hget) as [H | (payload & Hin & Hp)].
      * now left.
      * right. exists payload. split; [now right | exact Hp].
Qed.

Lemma gather_returns (items results : dict) :
  (forall key payload,
      In (key, payload) items ->
      requested_match requested key ->
      exists response,
        make_image_content_response (Some key) payload = inr response) ->
  exists gathered, gather self items results = inr gathered.
Proof.
  revert results.
  induction items as [|[c_type packages] rest IH]; intros results Hf.
  - now exists results.
  - simpl.
    destruct (is_content_type_match_rule c_type) as (matched & Hm & Hrule).
    rewrite Hm. simpl. destruct matched.
    + destruct (Hf c_type packages) as [response Hr];
        [now left | now apply Hrule |].
      rewrite Hr. simpl. apply IH. intros key payload Hin. apply Hf. now right.
    + apply IH. intros key payload Hin. apply Hf. now right.
Qed.

End Gather.

Lemma hydrate_multiple_run (self : getter) (selection : list string)
  (members : dict) (r : image_report) (w : world) :
  content_types self = Some selection ->
  selection <> [] ->
  hydrate_multiple self (JObj members) r w
  = (match gather self members [] with
     | inl err => inl err
     | inr results => inr (JObj results)
     end, w).
Proof.
  intros Hsel Hsome. unfold hydrate_multiple. rewrite Hsel.
  destruct members as [|member rest]; [reflexivity |].
  destruct selection as [|t ts]; [congruence |].
  unfold bind, lift, ret. cbn [negb truthy py_items].
  destruct (gather self (member :: rest) []); reflexivity.
Qed.

(** C7. For a multiple getter built from a non-empty list of requested
    types, a supported-type registry without the empty identifier and a
    fetched document that is a mapping: the result of [get] is a mapping
    whose keys are exactly the keys of the document that are supported and
    that are requested, by the sentinel [all] or by their lower-cased form,
    the requested types being taken in lower case; each entry of the
    result is the formatted payload of the entry of the document with the
    same key; and [get] returns as soon as the formatter accepts the
    payloads of the matching keys. *)
Theorem multiple_types_inclusion_rule (account digest : string)
  (requested : list string) (allow : bool) (w : world) (r : image_report)
  (members : dict) :
  let self := init_multiple account requested digest in
  requested <> [] ->
  ~ In "" image_content_types ->
  db_images w digest account = Some r ->
  allowed_status allow (analysis_status r) ->
  archive_document w account "image_content_data" digest = inr (JObj members) ->
  (forall out,
      fst (get self allow w) = inr out ->
      exists results,
        out = JObj results
        /\ (forall key,
              In key (dict_keys results)
              <-> In key (dict_keys members) /\ requested_match requested key)
        /\ (forall key response,
              dict_get key results = Some response ->
              exists payload,
                In (key, payload) members
                /\ make_image_content_response (Some key) payload
                   = inr response))
  /\ ((forall key payload,
          In (key, payload) members ->
          requested_match requested key ->
          exists response,
            make_image_content_response (Some key) payload = inr response) ->
      exists out, fst (get self allow w) = inr out).
Proof.
  intros self Hreq Hno Hr Hs Hdoc.
  assert (Hsel : content_types self = Some (map lower requested)).
  { subst self. simpl. destruct requested; [congruence | reflexivity]. }
  assert (Hsome : map lower requested <> [])
    by (destruct requested; [congruence | discriminate]).
  rewrite (get_multiple_hook self allow w r (JObj members) eq_refl Hr Hs Hdoc).
  rewrite (hydrate_multiple_run self _ members r _ Hsel Hsome). simpl fst.
  split.
  - intros out Hout.
    destruct (gather self members []) as [err | results] eqn:Hg;
      [discriminate |].
    injection Hout as <-. exists results. split; [reflexivity |]. split.
    + intros key. rewrite (gather_keys self requested Hsel Hno _ _ _ Hg key).
      simpl. tauto.
    + intros key response Hget.
      destruct (gather_values self _ _ _ Hg key response Hget)
        as [H | H]; [discriminate | exact H].
  - intros Hformat.
    destruct (gather_returns self requested Hsel Hno members [] Hformat)
      as [results Hg].
    rewrite Hg. now exists (JObj results).
Qed.

(** C3. A multiple getter built from the empty list of requested types
    never has its attribute [content_types] assigned. Its [get] returns
    the empty mapping when the fetched document is empty, and raises the
    attribute error when the document is not: the test of the requested
    types that was to return the empty mapping reads the missing
    attribute. *)
Theorem multiple_getter_empty_selection (account digest : string)
  (allow : bool) (w : world) (r : image_report) (document : json) :
  let self := init_multiple account [] digest in
  db_images w digest account = Some r ->
  allowed_status allow (analysis_status r) ->
  archive_document w account "image_content_data" digest = inr document ->
  content_types self = None
  /\ (truthy document = false -> fst (get self allow w) = inr (JObj []))
  /\ (truthy document = true ->
      fst (get self allow w) = inl (AttributeError "content_types")).
Proof.
  intros self Hr Hs Hdoc.
  rewrite (get_multiple_hook self allow w r document eq_refl Hr Hs Hdoc).
  unfold hydrate_multiple. simpl content_types.
  split; [reflexivity |].
  split; intros ->; reflexivity.
Qed.

(** A multiple getter with a selection returns the empty mapping for an
    empty document. *)
Lemma multiple_getter_empty_document (account digest : string)
  (requested : list string) (allow : bool) (w : world) (r : image_report)
  (document : json) :
  let self := init_multiple account requested digest in
  db_images w digest account = Some r ->
  allowed_status allow (analysis_status r) ->
  archive_document w account "image_content_data" digest = inr document ->
  truthy document = false ->
  fst (get self allow w) = inr (JObj []).
Proof.
  intros self Hr Hs Hdoc Hempty.
  rewrite (get_multiple_hook self allow w r document eq_refl Hr Hs Hdoc).
  unfold hydrate_multiple. now rewrite Hempty.
Qed.

End Properties.

(** ** The properties on sample inputs *)

Lemma missing_record_not_found_sample :
  (fst (Samples.run Samples.stranger Samples.packages_world)
   = inl (ResourceNotFound "Image not found"
            {| detail_account_id := "admin";
               detail_content_type := Some "os";
               detail_image_digest := "sha256:ffffff" |})
   /\ calls (snd (Samples.run Samples.stranger Samples.packages_world))
      = [DbCatalogImageGet "sha256:ffffff" "admin"])
  /\ fst (Samples.run (init_multiple "admin" ["os"] "sha256:ffffff")
            Samples.packages_world)
     = inl (ResourceNotFound "Image not found"
              {| detail_account_id := "admin";
                 detail_content_type := None;
                 detail_image_digest := "sha256:ffffff" |}).
Proof.
  split.
  - destruct (missing_record_not_found
                (collaborators := Reference.collaborators)
                Samples.stranger false Samples.packages_world eq_refl)
      as (Hout & Hcalls & _).
    split; [exact Hout | exact Hcalls].
  - destruct (missing_record_not_found
                (collaborators := Reference.collaborators)
                (init_multiple "admin" ["os"] "sha256:ffffff") false
                Samples.packages_world eq_refl)
      as (Hout & _).
    exact Hout.
Defined.

(** C5 as stated fails for the multiple getter: the detail of its
    not-found error holds None where the requested types were to be, so
    two requests for different types raise the same error. *)
Lemma missing_record_detail_lacks_requested_types :
  content_types (init_multiple "admin" ["os"] "sha256:ffffff") = Some ["os"]
  /\ content_types (init_multiple "admin" ["java"; "all"] "sha256:ffffff")
     = Some ["java"; "all"]
  /\ fst (Samples.run (init_multiple "admin" ["os"] "sha256:ffffff")
            Samples.packages_world)
     = inl (ResourceNotFound "Image not found"
              {| detail_account_id := "admin";
                 detail_content_type := None;
                 detail_image_digest := "sha256:ffffff" |})
  /\ fst (Samples.run (init_multiple "admin" ["java"; "all"] "sha256:ffffff")
            Samples.packages_world)
     = fst (Samples.run (init_multiple "admin" ["os"] "sha256:ffffff")
              Samples.packages_world).
Proof. repeat split. Qed.

Lemma analysis_state_validation_sample :
  fst (Samples.run Samples.os_getter Samples.analyzing_world)
  = inl (ResourceNotFound "image is not analyzed - analysis_status: analyzing"
           {| detail_account_id := "admin";
              detail_content_type := Some "os";
              detail_image_digest := Samples.digest |})
  /\ fst (Samples.run (init_multiple "admin" ["os"] Samples.digest)
            Samples.analyzing_world)
     = inl (ResourceNotFound
              "image is not analyzed - analysis_status: analyzing"
              {| detail_account_id := "admin";
                 detail_content_type := None;
                 detail_image_digest := Samples.digest |}).
Proof.
  split.
  - destruct (analysis_state_validation
                (collaborators := Reference.collaborators)
                Samples.os_getter false Samples.analyzing_world
                Samples.analyzing eq_refl) as (_ & _ & _ & Hrefused & _).
    apply Hrefused.
    intros [H | [H _]]; discriminate H.
  - destruct (analysis_state_validation
                (collaborators := Reference.collaborators)
                (init_multiple "admin" ["os"] Samples.digest) false
                Samples.analyzing_world Samples.analyzing eq_refl)
      as (_ & _ & _ & Hrefused & _).
    apply Hrefused.
    intros [H | [H _]]; discriminate H.
Defined.

(** C2 as stated fails for the multiple getter: the error of the state
    check holds None where the requested types were to be, so two requests
    for different types of an image that is still analyzing raise the same
    error. *)
Lemma invalid_state_detail_lacks_requested_types :
  analysis_status Samples.analyzing = "analyzing"
  /\ content_types (init_multiple "admin" ["os"] Samples.digest) = Some ["os"]
  /\ fst (Samples.run (init_multiple "admin" ["os"] Samples.digest)
            Samples.analyzing_world)
     = inl (ResourceNotFound
              "image is not analyzed - analysis_status: analyzing"
              {| detail_account_id := "admin";
                 detail_content_type := None;
                 detail_image_digest := Samples.digest |})
  /\ fst (Samples.run (init_multiple "admin" ["java"; "all"] Samples.digest)
            Samples.analyzing_world)
     = fst (Samples.run (init_multiple "admin" ["os"] Samples.digest)
              Samples.analyzing_world).
Proof. repeat split. Qed.

Lemma manifest_fetch_and_wrapping_sample :
  calls (snd (Samples.run Samples.manifest_getter Samples.packages_world))
  = [DbCatalogImageGet Samples.digest "admin";
     ObjGet "admin" "manifest_data" Samples.digest]
  /\ fst (Samples.run Samples.manifest_getter Samples.packages_world)
     = inr (JList [JNum 2]).
Proof.
  destruct (manifest_fetch_and_wrapping (collaborators := Reference.collaborators)
              Samples.manifest_getter false Samples.packages_world
              Samples.analyzed eq_refl eq_refl (or_introl eq_refl))
    as (Hcalls & Hpayload & _).
  split; [exact Hcalls |].
  destruct (Hpayload Samples.manifest eq_refl) as (_ & Hout & _).
  exact (Hout eq_refl).
Defined.

Lemma upstream_failure_without_request_detail_sample :
  fst (Samples.run Samples.os_getter Samples.failing_world)
  = inl (AnchoreError (ExternalError "object_store" "unavailable")
           "cannot fetch content data from archive" 500)
  /\ fst (Samples.run Samples.other_getter Samples.other_world)
     = fst (Samples.run Samples.os_getter Samples.failing_world).
Proof.
  apply (upstream_failure_without_request_detail
           (collaborators := Reference.collaborators)
           Samples.os_getter Samples.other_getter false
           Samples.failing_world Samples.other_world
           Samples.analyzed Samples.analyzed Samples.unavailable).
  - reflexivity.
  - reflexivity.
  - reflexivity.
  - reflexivity.
  - left; reflexivity.
  - left; reflexivity.
  - reflexivity.
  - reflexivity.
Defined.

Lemma dockerfile_migration_on_read_sample :
  fst (Samples.run Samples.dockerfile_getter Samples.legacy_world)
  = inr (JStr "FROM alpine")
  /\ archive_document (collaborators := Reference.collaborators)
       (snd (Samples.run Samples.dockerfile_getter Samples.legacy_world))
       "admin" "image_content_data" Samples.digest
     = inr Samples.migrated
  /\ fst (Samples.run Samples.dockerfile_getter
            (snd (Samples.run Samples.dockerfile_getter Samples.legacy_world)))
     = inr (JStr "FROM alpine").
Proof.
  destruct (dockerfile_migration_on_read
              (collaborators := Reference.collaborators)
              Samples.dockerfile_getter false Samples.legacy_world
              Samples.legacy
              [("os", JObj []); ("dockerfile", JStr "")]
              Samples.legacy_body "FROM alpine"
              eq_refl eq_refl eq_refl eq_refl (or_introl eq_refl)
              eq_refl eq_refl eq_refl eq_refl
              (or_intror (or_introl eq_refl)) eq_refl eq_refl eq_refl)
    as (Hout & _ & Hdoc & _ & Hagain & _).
  split; [exact Hout |]. split; [exact Hdoc |].
  exact (eq_trans Hagain Hout).
Defined.

(** C1 as stated fails: with no key [dockerfile] in the stored document
    the request for the dockerfile is refused before the hook of the
    getter runs. Nothing is decoded and nothing is written, although the
    record is in mode Actual and holds a valid legacy body. *)
Lemma dockerfile_without_key_is_refused :
  archive_document (collaborators := Reference.collaborators)
    Samples.keyless_world "admin" "image_content_data" Samples.digest
  = inr (JObj [("os", JObj [])])
  /\ dockerfile_mode Samples.legacy = Some "Actual"
  /\ map dockerfile (image_detail Samples.legacy)
     = [None; Some Samples.legacy_body]
  /\ Reference.b64decode Samples.legacy_body = inr "FROM alpine"
  /\ fst (Samples.run Samples.dockerfile_getter Samples.keyless_world)
     = inl (BadRequest
              "image content of type (dockerfile) was not an available type at analysis time for this image"
              {| detail_account_id := "admin";
                 detail_content_type := Some "dockerfile";
                 detail_image_digest := Samples.digest |})
  /\ fst (Samples.run Samples.dockerfile_getter Samples.keyless_world)
     <> Reference.format_response (Some "dockerfile") (JStr "FROM alpine")
  /\ calls (snd (Samples.run Samples.dockerfile_getter Samples.keyless_world))
     = [DbCatalogImageGet Samples.digest "admin";
        ObjGet "admin" "image_content_data" Samples.digest]
  /\ archive_document (collaborators := Reference.collaborators)
       (snd (Samples.run Samples.dockerfile_getter Samples.keyless_world))
       "admin" "image_content_data" Samples.digest
     = inr (JObj [("os", JObj [])]).
Proof.
  repeat split; try reflexivity.
  vm_compute. discriminate.
Qed.

Lemma migration_failure_is_not_fatal_sample :
  (fst (Samples.run Samples.dockerfile_getter Samples.read_only_legacy_world)
   = inr (JStr "FROM alpine")
   /\ obj_data (snd (Samples.run Samples.dockerfile_getter
                       Samples.read_only_legacy_world))
      = obj_data Samples.read_only_legacy_world)
  /\ fst (Samples.run Samples.dockerfile_getter Samples.broken_legacy_world)
     = inr (JList []).
Proof.
  split.
  - destruct (migration_failure_is_not_fatal
                (collaborators := Reference.collaborators)
                Samples.dockerfile_getter false Samples.read_only_legacy_world
                Samples.legacy "dockerfile"
                [("os", JObj []); ("dockerfile", JStr "")] (JStr "")
                Samples.legacy_body
                eq_refl eq_refl eq_refl (or_introl eq_refl) eq_refl eq_refl
                eq_refl eq_refl eq_refl) as (_ & Hwrite).
    destruct (Hwrite "FROM alpine" Samples.unavailable eq_refl eq_refl)
      as (Hout & Hdata & _).
    split; [exact Hout | exact Hdata].
  - destruct (migration_failure_is_not_fatal
                (collaborators := Reference.collaborators)
                Samples.dockerfile_getter false Samples.broken_legacy_world
                Samples.broken_legacy "dockerfile"
                [("os", JObj []); ("dockerfile", JStr "")] (JStr "")
                "R"
                eq_refl eq_refl eq_refl (or_introl eq_refl) eq_refl eq_refl
                eq_refl eq_refl eq_refl) as (Hdecode & _).
    destruct (Hdecode (ExternalError "binascii" "Incorrect padding") eq_refl)
      as (Hout & _).
    exact Hout.
Defined.

Lemma single_type_presence_check_sample :
  fst (Samples.run Samples.python_getter Samples.packages_world)
  = inl (BadRequest
           "image content of type (python) was not an available type at analysis time for this image"
           {| detail_account_id := "admin";
              detail_content_type := Some "python";
              detail_image_digest := Samples.digest |})
  /\ fst (Samples.run Samples.java_getter Samples.packages_world)
     = inr (JList []).
Proof.
  split.
  - destruct (single_type_presence_check
                (collaborators := Reference.collaborators)
                Samples.python_getter false Samples.packages_world
                Samples.analyzed "python"
                [("os", JObj [("musl", JObj [("version", JStr "1.2.4")])]);
                 ("java", JObj []);
                 ("unsupported", JObj [("x", JNum 1)])]
                eq_refl eq_refl eq_refl (or_introl eq_refl) eq_refl)
      as (Hmissing & _).
    apply Hmissing. simpl.
    intros [H | [H | [H | []]]]; discriminate H.
  - destruct (single_type_presence_check
                (collaborators := Reference.collaborators)
                Samples.java_getter false Samples.packages_world
                Samples.analyzed "java"
                [("os", JObj [("musl", JObj [("version", JStr "1.2.4")])]);
                 ("java", JObj []);
                 ("unsupported", JObj [("x", JNum 1)])]
                eq_refl eq_refl eq_refl (or_introl eq_refl) eq_refl)
      as (_ & Hempty).
    apply (Hempty (JObj []) (JList []) eq_refl eq_refl eq_refl).
    intros (Hclass & _). discriminate Hclass.
Defined.

(** C6 as stated fails for the dockerfile getter: the requested type is
    present with an empty payload, for which the formatter gives the empty
    result, and [get] returns the formatted legacy body instead. *)
Lemma empty_dockerfile_payload_is_migrated :
  __verify_content_type__ (class_of Samples.dockerfile_getter) = true
  /\ archive_document (collaborators := Reference.collaborators)
       Samples.legacy_world "admin" "image_content_data" Samples.digest
     = inr (JObj [("os", JObj []); ("dockerfile", JStr "")])
  /\ truthy (JStr "") = false
  /\ Reference.format_response (Some "dockerfile") (JStr "") = inr (JList [])
  /\ fst (Samples.run Samples.dockerfile_getter Samples.legacy_world)
     = inr (JStr "FROM alpine")
  /\ fst (Samples.run Samples.dockerfile_getter Samples.legacy_world)
     <> inr (JList []).
Proof.
  repeat split; try reflexivity.
  vm_compute. discriminate.
Qed.

Lemma migration_only_through_empty_entry_sample :
  calls (snd (Samples.run Samples.dockerfile_getter Samples.legacy_world))
  = [DbCatalogImageGet Samples.digest "admin";
     ObjGet "admin" "image_content_data" Samples.digest;
     ObjPut "admin" "image_content_data" Samples.digest
       (Reference.print_json (JObj [("document", Samples.migrated)]))]
  /\ fst (Samples.run Samples.dockerfile_getter Samples.keyless_world)
     = inl (BadRequest
              "image content of type (dockerfile) was not an available type at analysis time for this image"
              {| detail_account_id := "admin";
                 detail_content_type := Some "dockerfile";
                 detail_image_digest := Samples.digest |}).
Proof.
  split.
  - destruct (migration_only_through_empty_entry
                (collaborators := Reference.collaborators)
                Samples.dockerfile_getter false Samples.legacy_world
                eq_refl eq_refl) as (Hpresent & _).
    destruct (Hpresent Samples.legacy
                [("os", JObj []); ("dockerfile", JStr "")] (JStr "")
                eq_refl (or_introl eq_refl) eq_refl eq_refl eq_refl)
      as (_ & Hwrite).
    exact (Hwrite Samples.legacy_body "FROM alpine" eq_refl eq_refl eq_refl).
  - destruct (migration_only_through_empty_entry
                (collaborators := Reference.collaborators)
                Samples.dockerfile_getter false Samples.keyless_world
                eq_refl eq_refl) as (_ & Habsent & _).
    destruct (Habsent Samples.legacy [("os", JObj [])]
                eq_refl (or_introl eq_refl) eq_refl eq_refl) as (Hout & _).
    exact Hout.
Defined.

(** C10 as stated fails for a request of another type: asked for the
    packages of the operating system, the dockerfile getter passes the
    presence check on a document without the key [dockerfile], migrates,
    and writes the document with the decoded text. *)
Lemma migration_without_the_key_for_another_type :
  class_of Cases.dockerfile_getter_for_os = ImageDockerfileContentGetter
  /\ content_type Cases.dockerfile_getter_for_os = Some "os"
  /\ archive_document (collaborators := Reference.collaborators)
       Samples.keyless_world "admin" "image_content_data" Samples.digest
     = inr (JObj [("os", JObj [])])
  /\ dict_get "dockerfile" [("os", JObj [])] = None
  /\ fst (Samples.run Cases.dockerfile_getter_for_os Samples.keyless_world)
     = inr (JList [])
  /\ calls (snd (Samples.run Cases.dockerfile_getter_for_os
                   Samples.keyless_world))
     = [DbCatalogImageGet Samples.digest "admin";
        ObjGet "admin" "image_content_data" Samples.digest;
        ObjPut "admin" "image_content_data" Samples.digest
          (Reference.print_json (JObj [("document", Samples.migrated)]))]
  /\ archive_document (collaborators := Reference.collaborators)
       (snd (Samples.run Cases.dockerfile_getter_for_os Samples.keyless_world))
       "admin" "image_content_data" Samples.digest
     = inr Samples.migrated.
Proof. repeat split. Qed.

Lemma multiple_getter_empty_selection_sample :
  fst (Samples.run (init_multiple "admin" [] Samples.digest)
         Samples.packages_world)
  = inl (AttributeError "content_types").
Proof.
  destruct (multiple_getter_empty_selection
              (collaborators := Reference.collaborators)
              "admin" Samples.digest false Samples.packages_world
              Samples.analyzed Samples.packages
              eq_refl (or_introl eq_refl) eq_refl) as (_ & _ & Hraises).
  exact (Hraises eq_refl).
Defined.

Lemma multiple_types_inclusion_rule_sample :
  exists results,
    fst (Samples.run (init_multiple "admin" ["OS"] Samples.digest)
           Samples.packages_world) = inr (JObj results)
    /\ In "os" (dict_keys results)
    /\ ~ In "java" (dict_keys results)
    /\ ~ In "unsupported" (dict_keys results).
Proof.
  destruct (multiple_types_inclusion_rule
              (collaborators := Reference.collaborators)
              "admin" Samples.digest ["OS"] false Samples.packages_world
              Samples.analyzed
              [("os", JObj [("musl", JObj [("version", JStr "1.2.4")])]);
               ("java", JObj []);
               ("unsupported", JObj [("x", JNum 1)])])
    as (Hrule & Hreturns).
  - discriminate.
  - simpl. intros [H | [H | [H | [H | []]]]]; discriminate H.
  - reflexivity.
  - left; reflexivity.
  - reflexivity.
  - destruct Hreturns as [out Hout].
    + intros key payload [H | [H | [H | []]]] _; injection H as <- <-;
        eexists; reflexivity.
    + destruct (Hrule out Hout) as (results & -> & Hkeys & _).
      exists results. split; [exact Hout |]. split; [| split].
      * apply Hkeys. split; [now left |].
        split; [now left | right; now left].
      * intros H. apply Hkeys in H. destruct H as (_ & _ & [H | H]).
        -- destruct H as [H | []]. discriminate H.
        -- destruct H as [H | []]. discriminate H.
      * intros H. apply Hkeys in H. destruct H as (_ & H & _).
        simpl in H. destruct H as [H | [H | [H | [H | []]]]]; discriminate H.
Defined.

(** The base getter returns the formatted payload of its content type. *)
Example base_getter_formats_its_type :
  fst (Samples.run Samples.os_getter Samples.packages_world)
  = inr (JList [JObj [("version", JStr "1.2.4")]]).
Proof. reflexivity. Qed.

(** The multiple getter on the document of the design document: the
    sentinel [all] selects the supported types and leaves the others out,
    and a request in upper case matches the key in lower case. *)
Example multiple_getter_all :
  fst (Samples.run (init_multiple "admin" ["all"] Samples.digest)
         Samples.packages_world)
  = inr (JObj [("os", JList [JObj [("version", JStr "1.2.4")]]);
               ("java", JList [])]).
Proof. reflexivity. Qed.

Example multiple_getter_mixed_case :
  fst (Samples.run (init_multiple "admin" ["OS"] Samples.digest)
         Samples.packages_world)
  = inr (JObj [("os", JList [JObj [("version", JStr "1.2.4")]])]).
Proof. reflexivity. Qed.

(** * Further properties of the getters *)

Section Further.

Context {collaborators : Collaborators}.

(** ** The worlds [get] ends in *)

Lemma hydrate_dockerfile_world (self : getter) (document : json)
  (r : image_report) (w : world) :
  snd (hydrate_dockerfile self document r w) = w
  \/ exists data,
      snd (hydrate_dockerfile self document r w)
      = snd (obj_mgr_put (account_id self) "image_content_data"
               (imageDigest r) data w).
Proof.
  destruct document;
    try (left; unfold hydrate_dockerfile, bind, lift; reflexivity).
  destruct (truthy (dockerfile_entry members)) eqn:Hentry.
  { left. rewrite hydrate_dockerfile_unmigrated by now left. reflexivity. }
  destruct (dockerfile_mode_dec r) as [Hmode | Hmode].
  2:{ left. rewrite hydrate_dockerfile_unmigrated by (right; now left).
      reflexivity. }
  rewrite hydrate_dockerfile_actual by assumption.
  rewrite migrate_dockerfile_run. simpl snd.
  destruct (first_legacy_body (image_detail r)) as [body |]; [| now left].
  destruct (decodebytes body) as [err | text]; [now left |].
  right. eexists. reflexivity.
Qed.

Lemma hydrate_multiple_world (self : getter) (document : json)
  (r : image_report) (w : world) :
  snd (hydrate_multiple self document r w) = w.
Proof.
  unfold hydrate_multiple, bind, lift, ret, raise.
  destruct (negb (truthy document)); [reflexivity |].
  destruct (content_types self) as [[|t ts] |]; try reflexivity.
  destruct (py_items document) as [err | items]; [reflexivity |].
  destruct (gather self items []); reflexivity.
Qed.

Lemma hydrate_additional_data_world (self : getter) (document : json)
  (r : image_report) (w : world) :
  snd (hydrate_additional_data self document r w) = w
  \/ (class_of self = ImageDockerfileContentGetter
      /\ exists data,
          snd (hydrate_additional_data self document r w)
          = snd (obj_mgr_put (account_id self) "image_content_data"
                   (imageDigest r) data w)).
Proof.
  unfold hydrate_additional_data. destruct (class_of self) eqn:Hclass.
  - now left.
  - now left.
  - destruct (hydrate_dockerfile_world self document r w) as [H | H];
      [now left | right; now split].
  - left. apply hydrate_multiple_world.
Qed.

(** The world [get] ends in: after the lookup, after the read, or, for the
    dockerfile getter only, after the write of the migration. *)
Lemma get_world (self : getter) (allow : bool) (w : world) :
  snd (get self allow w) = looked_up self w
  \/ snd (get self allow w) = fetched_in self w
  \/ (class_of self = ImageDockerfileContentGetter
      /\ exists r data,
          db_images w (image_digest self) (account_id self) = Some r
          /\ snd (get self allow w)
             = snd (obj_mgr_put (account_id self) "image_content_data"
                      (imageDigest r) data (fetched_in self w))).
Proof.
  destruct (db_images w (image_digest self) (account_id self)) as [r |] eqn:Hr.
  2:{ left. now rewrite (get_not_found self allow w Hr). }
  destruct (allowed_status_dec allow (analysis_status r)) as [Hs | Hs].
  2:{ left. now rewrite (get_refused self allow w r Hr Hs). }
  destruct (get_image_content_data self (image_digest self) (looked_up self w))
    as [out w'] eqn:Hfetch.
  assert (Hw' : w' = fetched_in self w).
  { pose proof (get_image_content_data_world self (image_digest self)
                  (looked_up self w)) as H.
    rewrite Hfetch in H. exact H. }
  subst w'. right.
  assert (Hhook : forall document,
             get self allow w
             = hydrate_additional_data self document r (fetched_in self w) ->
             snd (get self allow w) = fetched_in self w
             \/ (class_of self = ImageDockerfileContentGetter
                 /\ exists r0 data,
                     Some r = Some r0
                     /\ snd (get self allow w)
                        = snd (obj_mgr_put (account_id self)
                                 "image_content_data" (imageDigest r0) data
                                 (fetched_in self w)))).
  { intros document ->.
    destruct (hydrate_additional_data_world self document r (fetched_in self w))
      as [H | [Hclass [data H]]]; [now left |].
    right. split; [exact Hclass |]. now exists r, data. }
  destruct out as [err | document].
  { left. now rewrite (get_fetch_failed self allow w _ r Hr Hs err Hfetch). }
  destruct (__verify_content_type__ (class_of self)) eqn:Hv.
  - destruct (py_in (content_type self) document) as [err | [|]] eqn:Hin.
    + left. now rewrite (get_in_failed self allow w _ r Hr Hs _ Hfetch err Hv Hin).
    + destruct (__normalize_to_user_format_on_load__ (class_of self)) eqn:Hn.
      * left. rewrite (get_normalized self allow w _ r Hr Hs _ Hfetch);
          [reflexivity | | exact Hin].
        destruct (class_of self); simpl in *; auto; discriminate.
      * apply (Hhook document).
        exact (get_hook self allow w _ r Hr Hs _ Hfetch Hn (or_intror Hin)).
    + left. now rewrite (get_missing_type self allow w _ r Hr Hs _ Hfetch Hv Hin).
  - assert (Hn : __normalize_to_user_format_on_load__ (class_of self) = false)
      by (destruct (class_of self); simpl in *; congruence).
    apply (Hhook document).
    exact (get_hook self allow w _ r Hr Hs _ Hfetch Hn (or_introl Hv)).
Qed.

(** X1. Whatever the getter and the world, [get] first looks the image
    record up, then reads the archive at most once, in the category of its
    class and under the digest of the request, and writes at most once;
    only the dockerfile getter writes, in the category of the content
    documents and under the digest held by the image record. *)
Theorem get_makes_at_most_three_calls (self : getter) (allow : bool)
  (w : world) :
  exists made,
    calls (snd (get self allow w)) = (calls w ++ made)%list
    /\ (made = [lookup_call self]
        \/ made = [lookup_call self; read_call self]
        \/ (class_of self = ImageDockerfileContentGetter
            /\ exists r data,
                db_images w (image_digest self) (account_id self) = Some r
                /\ made = [lookup_call self; read_call self;
                           write_call self r data])).
Proof.
  destruct (get_world self allow w) as [H | [H | (Hclass & r & data & Hr & H)]];
    rewrite H.
  - exists [lookup_call self]. split; [reflexivity | now left].
  - exists [lookup_call self; read_call self]. split; [| right; now left].
    apply calls_fetched_in.
  - exists [lookup_call self; read_call self; write_call self r data].
    split.
    + unfold obj_mgr_put. destruct (obj_put_raises _ _ _ _ _); simpl;
        rewrite <- !app_assoc; reflexivity.
    + right. right. split; [exact Hclass |]. now exists r, data.
Qed.

(** X2. [get] never changes the catalog nor the behaviour of the object
    store on writes, and it leaves every entry of the archive as it was,
    but for the one entry the dockerfile getter overwrites when its write
    is accepted: the content document under the digest of the image
    record. *)
Theorem get_leaves_the_archive_in_place (self : getter) (allow : bool)
  (w : world) :
  db_images (snd (get self allow w)) = db_images w
  /\ obj_put_raises (snd (get self allow w)) = obj_put_raises w
  /\ (obj_data (snd (get self allow w)) = obj_data w
      \/ (class_of self = ImageDockerfileContentGetter
          /\ exists r data,
              db_images w (image_digest self) (account_id self) = Some r
              /\ obj_put_raises w (account_id self) "image_content_data"
                   (imageDigest r) data = None
              /\ obj_data (snd (get self allow w))
                 = obj_data (store (account_id self) "image_content_data"
                               (imageDigest r) data w))).
Proof.
  destruct (get_world self allow w) as [H | [H | (Hclass & r & data & Hr & H)]];
    rewrite H.
  - repeat split. now left.
  - repeat split. now left.
  - unfold obj_mgr_put.
    change (obj_put_raises (fetched_in self w)) with (obj_put_raises w).
    destruct (obj_put_raises w (account_id self) "image_content_data"
                (imageDigest r) data) eqn:Hput; simpl.
    + repeat split. now left.
    + repeat split. right. split; [exact Hclass |].
      exists r, data. repeat split; assumption.
Qed.

(** ** The flag [allow_analyzing_state] *)

(** X3. The flag [allow_analyzing_state] matters for the images in the
    working state, and for no other. An image whose status is the working
    state, and not the complete state, is refused by [get] without the
    flag, with the not-analyzed error and no call but the lookup, while
    [get] with the flag passes the check and reads the archive. In every
    world where the image of the request is not such an image, [get] with
    the flag does exactly what [get] without it does, result and calls
    alike. *)
Theorem allow_analyzing_state_matters_for_working_images_only (self : getter)
  (w : world) :
  (forall r,
      db_images w (image_digest self) (account_id self) = Some r ->
      analysis_status r = working_state "analyze" ->
      analysis_status r <> complete_state "analyze" ->
      fst (get self false w)
      = inl (ResourceNotFound
               ("image is not analyzed - analysis_status: "
                ++ analysis_status r)
               (get_error_detail self))
      /\ calls (snd (get self false w)) = (calls w ++ [lookup_call self])%list
      /\ exists made,
          calls (snd (get self true w))
          = (calls w ++ lookup_call self :: read_call self :: made)%list)
  /\ (~ (exists r,
           db_images w (image_digest self) (account_id self) = Some r
           /\ analysis_status r = working_state "analyze"
           /\ analysis_status r <> complete_state "analyze") ->
      get self true w = get self false w).
Proof.
  split.
  - intros r Hr Hworking Hcomplete.
    assert (Hs : ~ allowed_status false (analysis_status r))
      by (intros [H | [H _]]; [contradiction | discriminate]).
    assert (Hs' : allowed_status true (analysis_status r))
      by (right; now split).
    rewrite (get_refused self false w r Hr Hs). repeat split.
    destruct (get_calls_past_check self true w r Hr Hs') as [made Hmade].
    exists made. rewrite Hmade, calls_fetched_in.
    now rewrite <- app_assoc.
  - intros Hnone.
    destruct (db_images w (image_digest self) (account_id self)) as [r |]
      eqn:Hr.
    2:{ now rewrite !get_not_found. }
    destruct (allowed_status_dec false (analysis_status r)) as [Hs | Hs].
    + assert (Hs' : allowed_status true (analysis_status r))
        by (destruct Hs as [H | [H _]]; [now left | discriminate]).
      unfold get, bind, db_catalog_image_get. rewrite Hr.
      rewrite (verify_analysis_status_allowed self r true) by exact Hs'.
      rewrite (verify_analysis_status_allowed self r false) by exact Hs.
      reflexivity.
    + destruct (allowed_status_dec true (analysis_status r)) as [Hs' | Hs'].
      * exfalso. apply Hnone. exists r. split; [reflexivity |].
        destruct Hs' as [H | [_ H]].
        -- elim Hs. now left.
        -- split; [exact H |]. intros Hc. apply Hs. now left.
      * now rewrite !(get_refused self _ w r Hr).
Qed.

(** ** What the result depends on *)

Lemma hydrate_additional_data_result (self : getter) (document : json)
  (r : image_report) (w w' : world) :
  fst (hydrate_additional_data self document r w)
  = fst (hydrate_additional_data self document r w').
Proof.
  unfold hydrate_additional_data. destruct (class_of self); try reflexivity.
  - destruct document;
      try (unfold hydrate_dockerfile, bind, lift; reflexivity).
    destruct (truthy (dockerfile_entry members)) eqn:Hentry.
    { now rewrite !hydrate_dockerfile_unmigrated by now left. }
    destruct (dockerfile_mode_dec r) as [Hmode | Hmode].
    2:{ now rewrite !hydrate_dockerfile_unmigrated by (right; now left). }
    rewrite !hydrate_dockerfile_actual by assumption.
    rewrite !migrate_dockerfile_run. simpl fst.
    destruct (first_legacy_body (image_detail r)) as [body |]; [| reflexivity].
    destruct (decodebytes body); reflexivity.
  - unfold hydrate_multiple, bind, lift, ret, raise.
    destruct (negb (truthy document)); [reflexivity |].
    destruct (content_types self) as [[|t ts] |]; try reflexivity.
    destruct (py_items document) as [err | items]; [reflexivity |].
    destruct (gather self items []); reflexivity.
Qed.

Lemma get_image_content_data_result (self : getter) (digest : string)
  (w w' : world) :
  obj_data w (account_id self) (content_bucket (class_of self)) digest
  = obj_data w' (account_id self) (content_bucket (class_of self)) digest ->
  fst (get_image_content_data self digest w)
  = fst (get_image_content_data self digest w').
Proof.
  intros Hdata.
  assert (Hdoc : archive_document w (account_id self)
                   (content_bucket (class_of self)) digest
                 = archive_document w' (account_id self)
                     (content_bucket (class_of self)) digest)
    by (unfold archive_document; now rewrite Hdata).
  destruct (class_of self) eqn:Hclass; simpl in Hdoc;
    try (rewrite !get_image_content_data_primary by congruence;
         simpl; now rewrite Hdoc).
  rewrite !get_image_content_data_manifest by assumption.
  simpl. now rewrite Hdoc.
Qed.

(** X4. The result of [get] is decided by the image record of the request
    and by the one archive entry its class reads: two worlds that agree on
    these give the same result, whatever their other records and entries,
    the calls made before, and the writes their object stores accept or
    refuse. *)
Theorem get_result_depends_on_record_and_entry (self : getter) (allow : bool)
  (w w' : world) :
  db_images w (image_digest self) (account_id self)
  = db_images w' (image_digest self) (account_id self) ->
  obj_data w (account_id self) (content_bucket (class_of self))
    (image_digest self)
  = obj_data w' (account_id self) (content_bucket (class_of self))
      (image_digest self) ->
  fst (get self allow w) = fst (get self allow w').
Proof.
  intros Hdb Hdata.
  destruct (db_images w (image_digest self) (account_id self)) as [r |] eqn:Hr;
    symmetry in Hdb.
  2:{ now rewrite !get_not_found. }
  destruct (allowed_status_dec allow (analysis_status r)) as [Hs | Hs].
  2:{ now rewrite (get_refused self allow w r Hr Hs),
        (get_refused self allow w' r Hdb Hs). }
  pose proof (get_image_content_data_result self (image_digest self)
                (looked_up self w) (looked_up self w') Hdata) as Hsame.
  destruct (get_image_content_data self (image_digest self) (looked_up self w))
    as [out v] eqn:Hfetch.
  destruct (get_image_content_data self (image_digest self) (looked_up self w'))
    as [out' v'] eqn:Hfetch'.
  simpl in Hsame. subst out'.
  destruct out as [err | document].
  { now rewrite (get_fetch_failed self allow w _ r Hr Hs err Hfetch),
      (get_fetch_failed self allow w' _ r Hdb Hs err Hfetch'). }
  destruct (__verify_content_type__ (class_of self)) eqn:Hv.
  - destruct (py_in (content_type self) document) as [err | [|]] eqn:Hin.
    + now rewrite (get_in_failed self allow w _ r Hr Hs _ Hfetch err Hv Hin),
        (get_in_failed self allow w' _ r Hdb Hs _ Hfetch' err Hv Hin).
    + destruct (__normalize_to_user_format_on_load__ (class_of self)) eqn:Hn.
      * assert (Hclass : class_of self = ImageContentGetter
                         \/ class_of self = ImageManifestContentGetter)
          by (destruct (class_of self); simpl in *; auto; discriminate).
        now rewrite (get_normalized self allow w _ r Hr Hs _ Hfetch Hclass Hin),
          (get_normalized self allow w' _ r Hdb Hs _ Hfetch' Hclass Hin).
      * rewrite (get_hook self allow w _ r Hr Hs _ Hfetch Hn (or_intror Hin)),
          (get_hook self allow w' _ r Hdb Hs _ Hfetch' Hn (or_intror Hin)).
        apply hydrate_additional_data_result.
    + now rewrite (get_missing_type self allow w _ r Hr Hs _ Hfetch Hv Hin),
        (get_missing_type self allow w' _ r Hdb Hs _ Hfetch' Hv Hin).
  - assert (Hn : __normalize_to_user_format_on_load__ (class_of self) = false)
      by (destruct (class_of self); simpl in *; congruence).
    rewrite (get_hook self allow w _ r Hr Hs _ Hfetch Hn (or_introl Hv)),
      (get_hook self allow w' _ r Hdb Hs _ Hfetch' Hn (or_introl Hv)).
    apply hydrate_additional_data_result.
Qed.

(** ** Reads that do not migrate *)

(** The fetch of a getter that reads the content documents, when the
    archive holds a document. *)
Lemma get_image_content_data_fetched (self : getter) (w : world)
  (document : json) :
  class_of self <> ImageManifestContentGetter ->
  archive_document w (account_id self) "image_content_data" (image_digest self)
  = inr document ->
  get_image_content_data self (image_digest self) (looked_up self w)
  = (inr document, fetched_in self w).
Proof.
  intros Hclass Hdoc.
  rewrite get_image_content_data_primary by exact Hclass.
  change (archive_document (looked_up self w)) with (archive_document w).
  rewrite Hdoc. unfold fetched_in.
  destruct (class_of self); try reflexivity. congruence.
Qed.

Lemma py_in_member (k : string) (members : dict) (payload : json) :
  dict_get k members = Some payload ->
  py_in (Some k) (JObj members) = inr true.
Proof.
  intros Hpayload. simpl.
  assert (H : In k (dict_keys members))
    by (apply dict_get_keys; now exists payload).
  apply mem_In in H. now rewrite H.
Qed.

(** X5. The base getter returns what the formatter gives for the payload
    of the requested type, its failure included, and only reads: the world
    it ends in is the one it started in with the lookup and the read
    added to the calls. *)
Theorem base_getter_formats_the_requested_payload (self : getter)
  (allow : bool) (w : world) (r : image_report) (k : string) (members : dict)
  (payload : json) :
  class_of self = ImageContentGetter ->
  content_type self = Some k ->
  db_images w (image_digest self) (account_id self) = Some r ->
  allowed_status allow (analysis_status r) ->
  archive_document w (account_id self) "image_content_data" (image_digest self)
  = inr (JObj members) ->
  dict_get k members = Some payload ->
  get self allow w
  = (make_image_content_response (Some k) payload, fetched_in self w).
Proof.
  intros Hclass Hk Hr Hs Hdoc Hpayload.
  assert (Hfetch :
            get_image_content_data self (image_digest self) (looked_up self w)
            = (inr (JObj members), fetched_in self w))
    by (apply get_image_content_data_fetched; congruence).
  rewrite (get_normalized self allow w _ r Hr Hs _ Hfetch (or_introl Hclass)).
  - now rewrite (content_response_member self k members payload Hk Hpayload).
  - rewrite Hk. exact (py_in_member k members payload Hpayload).
Qed.

(** X6. The dockerfile getter migrates nothing when the document already
    holds a non-empty [dockerfile] entry, when the image is not in mode
    Actual, or when no image detail holds a legacy body: it returns the
    formatted payload of the requested type as fetched and only reads. *)
Theorem dockerfile_getter_reads_without_migration (self : getter)
  (allow : bool) (w : world) (r : image_report) (k : string) (members : dict)
  (payload : json) :
  class_of self = ImageDockerfileContentGetter ->
  content_type self = Some k ->
  db_images w (image_digest self) (account_id self) = Some r ->
  allowed_status allow (analysis_status r) ->
  archive_document w (account_id self) "image_content_data" (image_digest self)
  = inr (JObj members) ->
  dict_get k members = Some payload ->
  truthy (dockerfile_entry members) = true
  \/ dockerfile_mode r <> Some "Actual"
  \/ first_legacy_body (image_detail r) = None ->
  get self allow w
  = (make_image_content_response (Some k) payload, fetched_in self w).
Proof.
  intros Hclass Hk Hr Hs Hdoc Hpayload Hcase.
  assert (Hin : In k (dict_keys members))
    by (apply dict_get_keys; now exists payload).
  rewrite (get_dockerfile_hook self allow w r k members Hclass Hk Hr Hs Hdoc Hin).
  rewrite hydrate_dockerfile_unmigrated by tauto.
  now rewrite (content_response_member self k members payload Hk Hpayload).
Qed.

(** X7. The migration of the dockerfile getter does not look at the
    requested type. Asked for another type that the document holds, in
    mode Actual and with a legacy body that decodes, the getter returns
    the formatted payload of that type and still writes the document with
    the decoded text under [dockerfile], also when the document had no
    such key; the write goes under the digest held by the image record and
    leaves the payload of the requested type as it was. *)
Theorem dockerfile_getter_migrates_for_any_type (self : getter) (allow : bool)
  (w : world) (r : image_report) (k : string) (members : dict)
  (payload : json) (body text : string) :
  class_of self = ImageDockerfileContentGetter ->
  content_type self = Some k ->
  k <> "dockerfile" ->
  db_images w (image_digest self) (account_id self) = Some r ->
  allowed_status allow (analysis_status r) ->
  archive_document w (account_id self) "image_content_data" (image_digest self)
  = inr (JObj members) ->
  dict_get k members = Some payload ->
  truthy (dockerfile_entry members) = false ->
  dockerfile_mode r = Some "Actual" ->
  first_legacy_body (image_detail r) = Some body ->
  decodebytes body = inr text ->
  let migrated := dict_set "dockerfile" (JStr text) members in
  let jsonbytes := json_dumps (JObj [("document", JObj migrated)]) in
  fst (get self allow w) = make_image_content_response (Some k) payload
  /\ calls (snd (get self allow w))
     = (calls w
        ++ [lookup_call self; read_call self; write_call self r jsonbytes])%list
  /\ dict_get k migrated = Some payload
  /\ dict_get "dockerfile" migrated = Some (JStr text)
  /\ (obj_put_raises w (account_id self) "image_content_data" (imageDigest r)
        jsonbytes = None ->
      obj_data (snd (get self allow w)) (account_id self) "image_content_data"
        (imageDigest r) = inr jsonbytes).
Proof.
  intros Hclass Hk Hne Hr Hs Hdoc Hpayload Hempty Hmode Hbody Hdec
    migrated jsonbytes.
  assert (Hin : In k (dict_keys members))
    by (apply dict_get_keys; now exists payload).
  assert (Hkept : dict_get k migrated = Some payload).
  { subst migrated. now rewrite dict_get_set_other by exact Hne. }
  rewrite (get_dockerfile_hook self allow w r k members Hclass Hk Hr Hs Hdoc Hin).
  rewrite (hydrate_dockerfile_migrated self r members _ body text Hempty Hmode
             Hbody Hdec).
  fold migrated. fold jsonbytes. simpl fst. simpl snd.
  split; [now apply content_response_member |].
  split.
  { unfold obj_mgr_put. destruct (obj_put_raises _ _ _ _ _); simpl;
      rewrite <- !app_assoc; reflexivity. }
  split; [exact Hkept |].
  split; [apply dict_get_set_same |].
  intros Hput. now apply obj_data_after_put.
Qed.

(** ** The selection of the multiple getter *)

Lemma is_content_type_match_selected (self : getter) (requested : list string)
  (key : string) :
  content_types self = Some (map lower requested) ->
  _is_content_type_match self key = inr (selected requested key).
Proof.
  intros Hsel. unfold _is_content_type_match, selected. rewrite Hsel.
  destruct (String.eqb key ""); simpl; [reflexivity |].
  destruct (mem key image_content_types); simpl; [| reflexivity].
  destruct (mem "all" (map lower requested)); reflexivity.
Qed.

Lemma dict_set_new (k : string) (v : json) (d : dict) :
  ~ In k (dict_keys d) -> dict_set k v d = (d ++ [(k, v)])%list.
Proof.
  induction d as [|[k' v'] rest IH]; simpl; intros Hnew; [reflexivity |].
  destruct (String.eqb_spec k k') as [-> | Hne]; [tauto |].
  rewrite IH by tauto. reflexivity.
Qed.

Section Selection.

Variables (self : getter) (requested : list string).
Hypothesis selection : content_types self = Some (map lower requested).

Lemma gather_in_order (items results gathered : dict) :
  NoDup (dict_keys items) ->
  (forall key, In key (dict_keys items) -> ~ In key (dict_keys results)) ->
  gather self items results = inr gathered ->
  exists added,
    gathered = (results ++ added)%list
    /\ Forall2 formatted_from added
         (filter (fun source => selected requested (fst source)) items).
Proof.
  revert results.
  induction items as [|[c_type packages] rest IH];
    intros results Hnodup Hfresh Hg.
  - injection Hg as <-. exists []. split; [now rewrite app_nil_r | constructor].
  - simpl in Hg, Hnodup. inversion Hnodup as [| ? ? Hc Hrest]; subst.
    rewrite (is_content_type_match_selected self requested c_type selection)
      in Hg.
    simpl in Hg. simpl filter.
    destruct (selected requested c_type).
    + destruct (make_image_content_response (Some c_type) packages)
        as [err | response] eqn:Hf; [discriminate |]. simpl in Hg.
      rewrite dict_set_new in Hg by (apply Hfresh; now left).
      destruct (IH (results ++ [(c_type, response)])%list Hrest)
        as (added & -> & Hadded); [| exact Hg |].
      * intros key Hkey. unfold dict_keys. rewrite map_app, in_app_iff. simpl.
        intros [H | [<- | []]]; [| contradiction].
        apply (Hfresh key); [now right | exact H].
      * exists ((c_type, response) :: added). split.
        -- now rewrite <- app_assoc.
        -- constructor; [split; [reflexivity | exact Hf] | exact Hadded].
    + apply (IH _ Hrest); [| exact Hg].
      intros key Hkey. apply Hfresh. now right.
Qed.

Lemma gather_keeps (items results gathered : dict) (key : string) :
  gather self items results = inr gathered ->
  ~ In key (dict_keys items) ->
  dict_get key gathered = dict_get key results.
Proof.
  revert results.
  induction items as [|[c_type packages] rest IH]; intros results Hg Hkey.
  - now injection Hg as <-.
  - simpl in Hg, Hkey.
    destruct (_is_content_type_match self c_type) as [err | [|]];
      [discriminate | |]; simpl in Hg.
    + destruct (make_image_content_response (Some c_type) packages)
        as [err | response]; [discriminate |]. simpl in Hg.
      rewrite (IH _ Hg) by tauto.
      apply dict_get_set_other. intros ->. tauto.
    + apply (IH _ Hg). tauto.
Qed.

Lemma gather_lookup (items results gathered : dict) (key : string)
  (payload : json) :
  NoDup (dict_keys items) ->
  gather self items results = inr gathered ->
  dict_get key items = Some payload ->
  selected requested key = true ->
  exists response,
    make_image_content_response (Some key) payload = inr response
    /\ dict_get key gathered = Some response.
Proof.
  revert results.
  induction items as [|[c_type packages] rest IH];
    intros results Hnodup Hg Hget Hsel; [discriminate |].
  simpl in Hg, Hget, Hnodup. inversion Hnodup as [| ? ? Hc Hrest]; subst.
  rewrite (is_content_type_match_selected self requested c_type selection)
    in Hg.
  simpl in Hg.
  destruct (String.eqb_spec key c_type) as [-> | Hne].
  - injection Hget as ->. rewrite Hsel in Hg.
    destruct (make_image_content_response (Some c_type) payload)
      as [err | response]; [discriminate |]. simpl in Hg.
    exists response. split; [reflexivity |].
    rewrite (gather_keeps _ _ _ c_type Hg Hc). apply dict_get_set_same.
  - destruct (selected requested c_type).
    + destruct (make_image_content_response (Some c_type) packages)
        as [err | response]; [discriminate |]. simpl in Hg.
      exact (IH _ Hrest Hg Hget Hsel).
    + exact (IH _ Hrest Hg Hget Hsel).
Qed.

Lemma gather_fails (before after results : dict) (key : string)
  (payload : json) (err : exn) :
  (forall k p,
      In (k, p) before ->
      selected requested k = true ->
      exists response, make_image_content_response (Some k) p = inr response) ->
  selected requested key = true ->
  make_image_content_response (Some key) payload = inl err ->
  gather self (before ++ (key, payload) :: after)%list results = inl err.
Proof.
  revert results.
  induction before as [|[c_type packages] rest IH];
    intros results Hbefore Hsel Hf; simpl.
  - rewrite (is_content_type_match_selected self requested key selection).
    simpl. now rewrite Hsel, Hf.
  - rewrite (is_content_type_match_selected self requested c_type selection).
    simpl.
    assert (Hrest : forall k p,
               In (k, p) rest ->
               selected requested k = true ->
               exists response,
                 make_image_content_response (Some k) p = inr response)
      by (intros k p Hin; apply Hbefore; now right).
    destruct (selected requested c_type) eqn:Hc.
    + destruct (Hbefore c_type packages (or_introl eq_refl) Hc)
        as [response Hresp].
      rewrite Hresp. simpl. now apply IH.
    + now apply IH.
Qed.

End Selection.

(** The hook of a multiple getter with a selection, on a mapping. *)
Lemma get_multiple_gathers (account digest : string) (requested : list string)
  (allow : bool) (w : world) (r : image_report) (members : dict) :
  let self := init_multiple account requested digest in
  requested <> [] ->
  db_images w digest account = Some r ->
  allowed_status allow (analysis_status r) ->
  archive_document w account "image_content_data" digest = inr (JObj members) ->
  content_types self = Some (map lower requested)
  /\ fst (get self allow w)
     = match gather self members [] with
       | inl err => inl err
       | inr results => inr (JObj results)
       end.
Proof.
  intros self Hreq Hr Hs Hdoc.
  assert (Hsel : content_types self = Some (map lower requested)).
  { subst self. simpl. destruct requested; [congruence | reflexivity]. }
  assert (Hsome : map lower requested <> [])
    by (destruct requested; [congruence | discriminate]).
  split; [exact Hsel |].
  rewrite (get_multiple_hook self allow w r (JObj members) eq_refl Hr Hs Hdoc).
  now rewrite (hydrate_multiple_run self _ members r _ Hsel Hsome).
Qed.

(** X8. The mapping a multiple getter returns lists the selected entries
    of the document in the order of the document, each with the formatted
    payload of the entry it comes from, and nothing else. *)
Theorem multiple_getter_keeps_document_order (account digest : string)
  (requested : list string) (allow : bool) (w : world) (r : image_report)
  (members : dict) (out : json) :
  let self := init_multiple account requested digest in
  requested <> [] ->
  db_images w digest account = Some r ->
  allowed_status allow (analysis_status r) ->
  archive_document w account "image_content_data" digest = inr (JObj members) ->
  NoDup (dict_keys members) ->
  fst (get self allow w) = inr out ->
  exists results,
    out = JObj results
    /\ Forall2 formatted_from results
         (filter (fun source => selected requested (fst source)) members)
    /\ dict_keys results = filter (selected requested) (dict_keys members).
Proof.
  intros self Hreq Hr Hs Hdoc Hnodup Hout.
  destruct (get_multiple_gathers account digest requested allow w r members
              Hreq Hr Hs Hdoc) as [Hsel Hget].
  fold self in Hsel, Hget. rewrite Hget in Hout.
  destruct (gather self members []) as [err | results] eqn:Hg;
    [discriminate |].
  injection Hout as <-.
  destruct (gather_in_order self requested Hsel members [] results Hnodup)
    as (added & -> & Hadded); [intros key _ [] | exact Hg |].
  exists added. split; [reflexivity |]. split; [exact Hadded |].
  clear Hg Hnodup Hdoc Hget. revert Hadded. generalize added.
  induction members as [|[k p] rest IH]; intros l Hl; simpl in *.
  - now inversion Hl.
  - destruct (selected requested k).
    + inversion Hl as [| entry source l' ? [Hkey _] Hrest]; subst.
      simpl in *. now rewrite Hkey, (IH l').
    + now apply IH.
Qed.

(** X9. The multiple getter is not lenient with the formatter: when the
    formatter refuses the payload of a selected entry, and accepts the
    selected entries before it in the document, [get] fails with the
    exception of the formatter and returns no mapping. *)
Theorem multiple_getter_formatter_failure (account digest : string)
  (requested : list string) (allow : bool) (w : world) (r : image_report)
  (before after : dict) (key : string) (payload : json) (err : exn) :
  let self := init_multiple account requested digest in
  requested <> [] ->
  db_images w digest account = Some r ->
  allowed_status allow (analysis_status r) ->
  archive_document w account "image_content_data" digest
  = inr (JObj (before ++ (key, payload) :: after)%list) ->
  (forall k p,
      In (k, p) before ->
      selected requested k = true ->
      exists response, make_image_content_response (Some k) p = inr response) ->
  selected requested key = true ->
  make_image_content_response (Some key) payload = inl err ->
  fst (get self allow w) = inl err.
Proof.
  intros self Hreq Hr Hs Hdoc Hbefore Hsel Hf.
  destruct (get_multiple_gathers account digest requested allow w r _
              Hreq Hr Hs Hdoc) as [Hselection Hget].
  fold self in Hselection, Hget. rewrite Hget.
  now rewrite (gather_fails self requested Hselection before after [] key
                 payload err Hbefore Hsel Hf).
Qed.

(** X10. The multiple getter agrees with the base getter: for a selected
    type that the document holds, the mapping it returns has under that
    type exactly what the base getter returns when asked for that type
    alone. *)
Theorem multiple_getter_agrees_with_base_getter (account digest : string)
  (requested : list string) (allow : bool) (w : world) (r : image_report)
  (members : dict) (key : string) (payload : json) (results : dict) :
  requested <> [] ->
  db_images w digest account = Some r ->
  allowed_status allow (analysis_status r) ->
  archive_document w account "image_content_data" digest = inr (JObj members) ->
  NoDup (dict_keys members) ->
  dict_get key members = Some payload ->
  selected requested key = true ->
  fst (get (init_multiple account requested digest) allow w)
  = inr (JObj results) ->
  exists response,
    dict_get key results = Some response
    /\ fst (get (init ImageContentGetter account key digest) allow w)
       = inr response.
Proof.
  intros Hreq Hr Hs Hdoc Hnodup Hpayload Hsel Hout.
  destruct (get_multiple_gathers account digest requested allow w r members
              Hreq Hr Hs Hdoc) as [Hselection Hget].
  rewrite Hget in Hout.
  destruct (gather (init_multiple account requested digest) members [])
    as [err | gathered] eqn:Hg; [discriminate |].
  injection Hout as ->.
  destruct (gather_lookup _ requested Hselection members [] results key payload
              Hnodup Hg Hpayload Hsel) as (response & Hf & Hres).
  exists response. split; [exact Hres |].
  set (base := init ImageContentGetter account key digest).
  assert (Hfetch :
            get_image_content_data base (image_digest base) (looked_up base w)
            = (inr (JObj members), fetched_in base w))
    by (apply get_image_content_data_fetched; [discriminate | exact Hdoc]).
  rewrite (get_normalized base allow w _ r Hr Hs _ Hfetch
             (or_introl eq_refl) (py_in_member key members payload Hpayload)).
  simpl fst.
  now rewrite (content_response_member base key members payload eq_refl
                 Hpayload).
Qed.

(** ** Letter case of the requested types *)

Lemma lower_ascii_idempotent (c : ascii) :
  lower_ascii (lower_ascii c) = lower_ascii c.
Proof. destruct c as [[] [] [] [] [] [] [] []]; reflexivity. Qed.

Lemma lower_idempotent (s : string) : lower (lower s) = lower s.
Proof.
  induction s as [|c rest IH]; [reflexivity |].
  simpl. now rewrite lower_ascii_idempotent, IH.
Qed.

(** X11. The multiple getter does not see the letter case of the
    requested types: the getter built from a request is the getter built
    from the request in lower case, so both behave alike in every world. *)
Theorem multiple_getter_ignores_request_case (account digest : string)
  (requested : list string) (allow : bool) (w : world) :
  init_multiple account (map lower requested) digest
  = init_multiple account requested digest
  /\ get (init_multiple account (map lower requested) digest) allow w
     = get (init_multiple account requested digest) allow w.
Proof.
  assert (H : init_multiple account (map lower requested) digest
              = init_multiple account requested digest).
  { unfold init_multiple. f_equal.
    destruct requested as [|t ts]; [reflexivity |].
    simpl. rewrite lower_idempotent. do 2 f_equal.
    rewrite map_map. apply map_ext. intros s. apply lower_idempotent. }
  split; [exact H | now rewrite H].
Qed.

(** ** Reading again after a migration *)

Lemma calls_after_put (account bucket key data : string) (w : world) :
  calls (snd (obj_mgr_put account bucket key data w))
  = (calls w ++ [ObjPut account bucket key data])%list.
Proof.
  unfold obj_mgr_put.
  destruct (obj_put_raises w account bucket key data); reflexivity.
Qed.

Section SecondRead.

Variables (self : getter) (allow : bool) (w : world) (r : image_report)
  (members : dict) (body text : string).

Hypothesis dockerfile_class : class_of self = ImageDockerfileContentGetter.
Hypothesis dockerfile_type : content_type self = Some "dockerfile".
Hypothesis found : db_images w (image_digest self) (account_id self) = Some r.
Hypothesis same_digest : imageDigest r = image_digest self.
Hypothesis allowed : allowed_status allow (analysis_status r).
Hypothesis actual : dockerfile_mode r = Some "Actual".
Hypothesis legacy : first_legacy_body (image_detail r) = Some body.
Hypothesis decoded : decodebytes body = inr text.
Hypothesis stored :
  archive_document w (account_id self) "image_content_data" (image_digest self)
  = inr (JObj members).
Hypothesis present : In "dockerfile" (dict_keys members).
Hypothesis empty : truthy (dockerfile_entry members) = false.

Lemma get_migrating :
  get self allow w
  = (make_image_content_response (Some "dockerfile") (JStr text),
     snd (obj_mgr_put (account_id self) "image_content_data"
            (image_digest self) (migrated_bytes text members) (fetched_in self w))).
Proof.
  rewrite (get_dockerfile_hook self allow w r _ members dockerfile_class
             dockerfile_type found allowed stored present).
  rewrite (hydrate_dockerfile_migrated self r members _ body text empty actual
             legacy decoded).
  rewrite same_digest. unfold migrated_bytes, migrated_document. f_equal.
  apply content_response_member; [exact dockerfile_type |].
  apply dict_get_set_same.
Qed.

(** X12. A write of the migration that the object store refuses is tried
    again by the next read: the archive is as it was, so the second [get]
    returns the same result as the first and makes the same three calls,
    the write of the same bytes included. *)
Theorem refused_migration_is_tried_again (err : exn) :
  obj_put_raises w (account_id self) "image_content_data" (image_digest self)
    (migrated_bytes text members) = Some err ->
  let after := snd (get self allow w) in
  obj_data after = obj_data w
  /\ fst (get self allow after) = fst (get self allow w)
  /\ calls (snd (get self allow after))
     = (calls after
        ++ [lookup_call self; read_call self; write_call self r (migrated_bytes text members)])%list.
Proof.
  intros Hput after.
  assert (Hafter : after
                   = log (ObjPut (account_id self) "image_content_data"
                            (image_digest self) (migrated_bytes text members)) (fetched_in self w)).
  { subst after. rewrite get_migrating. simpl snd. unfold obj_mgr_put.
    change (obj_put_raises (fetched_in self w)) with (obj_put_raises w).
    now rewrite Hput. }
  clearbody after.
  split; [now rewrite Hafter |].
  assert (Hget : get self allow after
                 = (make_image_content_response (Some "dockerfile") (JStr text),
                    snd (obj_mgr_put (account_id self) "image_content_data"
                           (imageDigest r) (migrated_bytes text members) (fetched_in self after)))).
  { rewrite (get_dockerfile_hook self allow after r _ members dockerfile_class
               dockerfile_type); try assumption.
    - rewrite (hydrate_dockerfile_migrated self r members _ body text empty
                 actual legacy decoded).
      unfold migrated_bytes, migrated_document. f_equal.
      apply content_response_member; [exact dockerfile_type |].
      apply dict_get_set_same.
    - now rewrite Hafter.
    - now rewrite Hafter. }
  split.
  - now rewrite Hget, get_migrating.
  - rewrite Hget. simpl snd.
    rewrite calls_after_put, calls_fetched_in, <- !app_assoc. reflexivity.
Qed.

(** X13. A migration that is written is made once when the decoded text
    is not empty: the next [get] finds the entry, returns the same result
    and only reads. When the legacy body decodes to the empty text the
    entry written is empty again, and the next [get] writes the same bytes
    once more. *)
Theorem accepted_migration_is_made_once :
  obj_put_raises w (account_id self) "image_content_data" (image_digest self)
    (migrated_bytes text members) = None ->
  json_loads (migrated_bytes text members) = inr (JObj [("document", JObj (migrated_document text members))]) ->
  let after := snd (get self allow w) in
  fst (get self allow after) = fst (get self allow w)
  /\ (text <> "" ->
      calls (snd (get self allow after))
      = (calls after ++ [lookup_call self; read_call self])%list
      /\ obj_data (snd (get self allow after)) = obj_data after)
  /\ (text = "" ->
      calls (snd (get self allow after))
      = (calls after
         ++ [lookup_call self; read_call self;
             write_call self r (migrated_bytes text members)])%list).
Proof.
  intros Hput Hloads after.
  assert (Hafter : after
                   = store (account_id self) "image_content_data"
                       (image_digest self) (migrated_bytes text members)
                       (log (ObjPut (account_id self) "image_content_data"
                               (image_digest self) (migrated_bytes text members))
                          (fetched_in self w))).
  { subst after. rewrite get_migrating. simpl snd. unfold obj_mgr_put.
    change (obj_put_raises (fetched_in self w)) with (obj_put_raises w).
    now rewrite Hput. }
  clearbody after.
  assert (Hfound : db_images after (image_digest self) (account_id self)
                   = Some r) by now rewrite Hafter.
  assert (Hstored : archive_document after (account_id self)
                      "image_content_data" (image_digest self)
                    = inr (JObj (migrated_document text members))).
  { rewrite (archive_document_of_data after _ _ _ (migrated_bytes text members)).
    - now rewrite Hloads.
    - rewrite Hafter. simpl. now rewrite !String.eqb_refl. }
  assert (Hpresent : In "dockerfile" (dict_keys (migrated_document text members)))
    by (apply dict_keys_set; now left).
  assert (Hentry : dockerfile_entry (migrated_document text members) = JStr text)
    by (unfold dockerfile_entry, migrated_document;
        now rewrite dict_get_set_same).
  assert (Hresp : content_response self (JObj (migrated_document text members))
                  = make_image_content_response (Some "dockerfile") (JStr text)).
  { apply content_response_member; [exact dockerfile_type |].
    apply dict_get_set_same. }
  pose proof (get_dockerfile_hook self allow after r _ (migrated_document text members) dockerfile_class
                dockerfile_type Hfound allowed Hstored Hpresent) as Hget.
  destruct (String.eqb_spec text "") as [Htext | Htext].
  - (* the entry is empty again *)
    rewrite (hydrate_dockerfile_migrated self r (migrated_document text members) _ body text) in Hget;
      try assumption.
    2:{ rewrite Hentry, Htext. reflexivity. }
    unfold migrated_document in Hget at 1 2.
    rewrite dict_set_idempotent in Hget.
    fold (migrated_document text members) in Hget.
    fold (migrated_bytes text members) in Hget. rewrite Hresp in Hget.
    split; [now rewrite Hget, get_migrating |].
    split; [congruence |]. intros _.
    rewrite Hget. simpl snd.
    rewrite calls_after_put, calls_fetched_in, <- !app_assoc. reflexivity.
  - rewrite hydrate_dockerfile_unmigrated in Hget.
    2:{ left. rewrite Hentry. simpl.
        destruct (String.eqb_spec text ""); [contradiction | reflexivity]. }
    rewrite Hresp in Hget.
    split; [now rewrite Hget, get_migrating |].
    split; [| congruence]. intros _.
    rewrite Hget. simpl snd. split; [| reflexivity].
    now rewrite calls_fetched_in.
Qed.

End SecondRead.

End Further.

(** ** The further properties on sample inputs *)

Lemma allow_analyzing_state_matters_for_working_images_only_sample :
  (fst (Samples.run Samples.os_getter Samples.analyzing_world)
   = inl (ResourceNotFound
            "image is not analyzed - analysis_status: analyzing"
            {| detail_account_id := "admin";
               detail_content_type := Some "os";
               detail_image_digest := Samples.digest |})
   /\ exists made,
       calls (snd (get (collaborators := Reference.collaborators)
                     Samples.os_getter true Samples.analyzing_world))
       = DbCatalogImageGet Samples.digest "admin"
         :: ObjGet "admin" "image_content_data" Samples.digest :: made)
  /\ get (collaborators := Reference.collaborators)
       Samples.os_getter true Samples.packages_world
     = Samples.run Samples.os_getter Samples.packages_world.
Proof.
  split.
  - destruct (allow_analyzing_state_matters_for_working_images_only
                (collaborators := Reference.collaborators)
                Samples.os_getter Samples.analyzing_world) as (Hworking & _).
    destruct (Hworking Samples.analyzing eq_refl eq_refl)
      as (Hout & _ & Hread); [discriminate |].
    split; [exact Hout | exact Hread].
  - destruct (allow_analyzing_state_matters_for_working_images_only
                (collaborators := Reference.collaborators)
                Samples.os_getter Samples.packages_world) as (_ & Hother).
    apply Hother. intros (r & Hr & Hworking & _).
    injection Hr as <-. discriminate Hworking.
Defined.

Lemma get_result_depends_on_record_and_entry_sample :
  fst (Samples.run Samples.dockerfile_getter Samples.read_only_legacy_world)
  = fst (Samples.run Samples.dockerfile_getter Samples.legacy_world).
Proof.
  apply (get_result_depends_on_record_and_entry
           (collaborators := Reference.collaborators)
           Samples.dockerfile_getter false
           Samples.read_only_legacy_world Samples.legacy_world).
  - reflexivity.
  - reflexivity.
Defined.

Lemma base_getter_formats_the_requested_payload_sample :
  Samples.run Samples.os_getter Samples.packages_world
  = (inr (JList [JObj [("version", JStr "1.2.4")]]),
     fetched_in Samples.os_getter Samples.packages_world).
Proof.
  apply (base_getter_formats_the_requested_payload
           (collaborators := Reference.collaborators)
           Samples.os_getter false Samples.packages_world Samples.analyzed
           "os"
           [("os", JObj [("musl", JObj [("version", JStr "1.2.4")])]);
            ("java", JObj []);
            ("unsupported", JObj [("x", JNum 1)])]
           (JObj [("musl", JObj [("version", JStr "1.2.4")])])).
  - reflexivity.
  - reflexivity.
  - reflexivity.
  - left; reflexivity.
  - reflexivity.
  - reflexivity.
Defined.

Lemma dockerfile_getter_reads_without_migration_sample :
  Samples.run Samples.dockerfile_getter Cases.migrated_world
  = (inr (JStr "FROM alpine"),
     fetched_in Samples.dockerfile_getter Cases.migrated_world).
Proof.
  apply (dockerfile_getter_reads_without_migration
           (collaborators := Reference.collaborators)
           Samples.dockerfile_getter false Cases.migrated_world Samples.legacy
           "dockerfile"
           [("os", JObj []); ("dockerfile", JStr "FROM alpine")]
           (JStr "FROM alpine")).
  - reflexivity.
  - reflexivity.
  - reflexivity.
  - left; reflexivity.
  - reflexivity.
  - reflexivity.
  - left; reflexivity.
Defined.

Lemma dockerfile_getter_migrates_for_any_type_sample :
  fst (Samples.run Cases.dockerfile_getter_for_os Samples.keyless_world)
  = inr (JList [])
  /\ archive_document (collaborators := Reference.collaborators)
       (snd (Samples.run Cases.dockerfile_getter_for_os Samples.keyless_world))
       "admin" "image_content_data" Samples.digest
     = inr Samples.migrated.
Proof.
  destruct (dockerfile_getter_migrates_for_any_type
              (collaborators := Reference.collaborators)
              Cases.dockerfile_getter_for_os false Samples.keyless_world
              Samples.legacy "os" [("os", JObj [])] (JObj [])
              Samples.legacy_body "FROM alpine"
              eq_refl eq_refl)
    as (Hout & _ & _ & _ & Hdata).
  - discriminate.
  - reflexivity.
  - left; reflexivity.
  - reflexivity.
  - reflexivity.
  - reflexivity.
  - reflexivity.
  - reflexivity.
  - reflexivity.
  - split; [exact Hout |].
    rewrite (archive_document_of_data _ _ _ _ _ (Hdata eq_refl)).
    reflexivity.
Defined.

Lemma multiple_getter_keeps_document_order_sample :
  exists results,
    fst (Samples.run Cases.all_getter Samples.packages_world)
    = inr (JObj results)
    /\ dict_keys results = ["os"; "java"].
Proof.
  destruct (multiple_getter_keeps_document_order
              (collaborators := Reference.collaborators)
              "admin" Samples.digest ["all"] false Samples.packages_world
              Samples.analyzed
              [("os", JObj [("musl", JObj [("version", JStr "1.2.4")])]);
               ("java", JObj []);
               ("unsupported", JObj [("x", JNum 1)])]
              (JObj [("os", JList [JObj [("version", JStr "1.2.4")]]);
                     ("java", JList [])]))
    as (results & Hout & _ & Hkeys).
  - discriminate.
  - reflexivity.
  - left; reflexivity.
  - reflexivity.
  - repeat constructor; simpl; intuition discriminate.
  - reflexivity.
  - exists results. split; [| exact Hkeys].
    rewrite <- Hout. reflexivity.
Defined.

Lemma multiple_getter_formatter_failure_sample :
  fst (Samples.run Cases.all_getter Cases.odd_world)
  = inl (ExternalError "make_image_content_response" "unrecognised payload").
Proof.
  apply (multiple_getter_formatter_failure
           (collaborators := Reference.collaborators)
           "admin" Samples.digest ["all"] false Cases.odd_world
           Samples.analyzed
           [("java", JObj [("guava", JObj [("version", JStr "33.0")])])] []
           "os" (JNum 7)).
  - discriminate.
  - reflexivity.
  - left; reflexivity.
  - reflexivity.
  - intros k p [H | []] _. injection H as <- <-. eexists. reflexivity.
  - reflexivity.
  - reflexivity.
Defined.

Lemma multiple_getter_agrees_with_base_getter_sample :
  exists response,
    dict_get "os" [("os", JList [JObj [("version", JStr "1.2.4")]])]
    = Some response
    /\ fst (Samples.run Samples.os_getter Samples.packages_world)
       = inr response.
Proof.
  apply (multiple_getter_agrees_with_base_getter
           (collaborators := Reference.collaborators)
           "admin" Samples.digest ["OS"] false Samples.packages_world
           Samples.analyzed
           [("os", JObj [("musl", JObj [("version", JStr "1.2.4")])]);
            ("java", JObj []);
            ("unsupported", JObj [("x", JNum 1)])]
           "os" (JObj [("musl", JObj [("version", JStr "1.2.4")])])).
  - discriminate.
  - reflexivity.
  - left; reflexivity.
  - reflexivity.
  - repeat constructor; simpl; intuition discriminate.
  - reflexivity.
  - reflexivity.
  - reflexivity.
Defined.

Lemma refused_migration_is_tried_again_sample :
  fst (Samples.run Samples.dockerfile_getter
         (snd (Samples.run Samples.dockerfile_getter
                 Samples.read_only_legacy_world)))
  = inr (JStr "FROM alpine")
  /\ calls (snd (Samples.run Samples.dockerfile_getter
                   (snd (Samples.run Samples.dockerfile_getter
                           Samples.read_only_legacy_world))))
     = [DbCatalogImageGet Samples.digest "admin";
        ObjGet "admin" "image_content_data" Samples.digest;
        ObjPut "admin" "image_content_data" Samples.digest
          (Reference.print_json (JObj [("document", Samples.migrated)]));
        DbCatalogImageGet Samples.digest "admin";
        ObjGet "admin" "image_content_data" Samples.digest;
        ObjPut "admin" "image_content_data" Samples.digest
          (Reference.print_json (JObj [("document", Samples.migrated)]))].
Proof.
  destruct (refused_migration_is_tried_again
              (collaborators := Reference.collaborators)
              Samples.dockerfile_getter false Samples.read_only_legacy_world
              Samples.legacy [("os", JObj []); ("dockerfile", JStr "")]
              Samples.legacy_body "FROM alpine"
              eq_refl eq_refl eq_refl eq_refl (or_introl eq_refl) eq_refl
              eq_refl eq_refl eq_refl (or_intror (or_introl eq_refl)) eq_refl
              Samples.unavailable eq_refl)
    as (_ & Hout & Hcalls).
  split; [exact Hout | exact Hcalls].
Defined.

Lemma accepted_migration_is_made_once_sample :
  calls (snd (Samples.run Samples.dockerfile_getter
                (snd (Samples.run Samples.dockerfile_getter
                        Samples.legacy_world))))
  = [DbCatalogImageGet Samples.digest "admin";
     ObjGet "admin" "image_content_data" Samples.digest;
     ObjPut "admin" "image_content_data" Samples.digest
       (Reference.print_json (JObj [("document", Samples.migrated)]));
     DbCatalogImageGet Samples.digest "admin";
     ObjGet "admin" "image_content_data" Samples.digest]
  /\ calls (snd (Samples.run Samples.dockerfile_getter
                   (snd (Samples.run Samples.dockerfile_getter
                           Cases.blank_legacy_world))))
     = [DbCatalogImageGet Samples.digest "admin";
        ObjGet "admin" "image_content_data" Samples.digest;
        ObjPut "admin" "image_content_data" Samples.digest
          (Reference.print_json (JObj [("document", Samples.unmigrated)]));
        DbCatalogImageGet Samples.digest "admin";
        ObjGet "admin" "image_content_data" Samples.digest;
        ObjPut "admin" "image_content_data" Samples.digest
          (Reference.print_json (JObj [("document", Samples.unmigrated)]))].
Proof.
  split.
  - destruct (accepted_migration_is_made_once
                (collaborators := Reference.collaborators)
                Samples.dockerfile_getter false Samples.legacy_world
                Samples.legacy [("os", JObj []); ("dockerfile", JStr "")]
                Samples.legacy_body "FROM alpine"
                eq_refl eq_refl eq_refl eq_refl (or_introl eq_refl) eq_refl
                eq_refl eq_refl eq_refl (or_intror (or_introl eq_refl)) eq_refl
                eq_refl eq_refl)
      as (_ & Honce & _).
    destruct Honce as [Hcalls _]; [discriminate | exact Hcalls].
  - destruct (accepted_migration_is_made_once
                (collaborators := Reference.collaborators)
                Samples.dockerfile_getter false Cases.blank_legacy_world
                Cases.blank_legacy [("os", JObj []); ("dockerfile", JStr "")]
                " " ""
                eq_refl eq_refl eq_refl eq_refl (or_introl eq_refl) eq_refl
                eq_refl eq_refl eq_refl (or_intror (or_introl eq_refl)) eq_refl
                eq_refl eq_refl)
      as (_ & _ & Hagain).
    exact (Hagain eq_refl).
Defined.
